(** * Nobel-Prize-Fetcher: a shallow embedding of [nobel_people_fetcher.py]

    The development follows the layout of the Python module:
    - [Py]      : the Python values the program handles (decoded JSON,
                  exceptions) and the builtins it calls on them
                  ([int], subscripting, [in], truthiness, iteration);
    - [IO]      : the effects of the program as a trace of events
                  (console, logging calls, the HTTP request) together with
                  an outcome that is either a value or a raised exception;
    - the class [NobelApiFetcher], the function [get_year_from_user] and
      the [__main__] block;
    - the vocabulary of the statements and sample data;
    - the theorems about them. *)

From Stdlib Require Import ZArith List String Ascii Bool Lia DecimalString.
Import ListNotations.

#[local] Open Scope string_scope.
#[local] Open Scope list_scope.
#[local] Open Scope Z_scope.

(* ===================================================================== *)
(** ** Python values and builtins *)
(* ===================================================================== *)

Module Py.

(** A Python [float] is an IEEE double: a finite dyadic number
    [m * 2^e], an infinity or a NaN.  Only [int()] and truthiness are
    applied to it by the program. *)
Inductive pyfloat : Type :=
| FFinite (m e : Z)
| FInf (negative : bool)
| FNan.

#[local] Set Warnings "-register-all".

(** What [response.json()] returns: [None], [bool], [int], [float], [str],
    [list] and [dict] with string keys.  A [dict] is the list of its
    bindings in insertion order, each key bound once. *)
Inductive json : Type :=
| JNull
| JBool (b : bool)
| JInt (n : Z)
| JFloat (f : pyfloat)
| JStr (s : string)
| JList (l : list json)
| JDict (d : list (string * json)).

(** The exceptions that occur in the program.  [RequestException] stands
    for an instance of [requests.exceptions.RequestException] that is
    neither a [Timeout] nor a [TooManyRedirects] ([HTTPError],
    [ConnectionError], ...).  [SystemExit] is the only one that is not a
    subclass of [Exception]. *)
Inductive exn : Type :=
| KeyError (key : json)
| IndexError
| TypeError
| ValueError
| OverflowError
| EOFError
| Timeout
| TooManyRedirects
| RequestException
| SystemExit (code : Z).

(** [isinstance(e, Exception)] *)
Definition is_Exception (e : exn) : bool :=
  match e with
  | SystemExit _ => false
  | _ => true
  end.

(** [isinstance(e, requests.exceptions.RequestException)] *)
Definition is_RequestException (e : exn) : bool :=
  match e with
  | Timeout | TooManyRedirects | RequestException => true
  | _ => false
  end.

(** The value of an expression: returned, or an exception raised. *)
Inductive result (A : Type) : Type :=
| Ret (a : A)
| Raise (e : exn).
Arguments Ret {A} a.
Arguments Raise {A} e.

Definition rbind {A B} (r : result A) (k : A -> result B) : result B :=
  match r with
  | Ret a => k a
  | Raise e => Raise e
  end.

Declare Scope result_scope.
Delimit Scope result_scope with result.
Notation "x <- c ;; k" := (rbind c (fun x => k))
  (at level 61, c at next level, right associativity) : result_scope.

(** *** dict lookup, [d[k]] and [k in d] *)

Fixpoint dict_get (k : string) (d : list (string * json)) : option json :=
  match d with
  | [] => None
  | (k', v) :: d' => if String.eqb k k' then Some v else dict_get k d'
  end.

Definition dict_contains (k : string) (d : list (string * json)) : bool :=
  match dict_get k d with
  | Some _ => true
  | None => false
  end.

(** [v[k]] for a string [k]: only a [dict] accepts a string subscript. *)
Definition getitem (v : json) (k : string) : result json :=
  match v with
  | JDict d =>
      match dict_get k d with
      | Some x => Ret x
      | None => Raise (KeyError (JStr k))
      end
  | _ => Raise TypeError
  end.

(** [v[i]] for an index [i >= 0].  The keys of a decoded JSON object are
    strings, so an integer subscript of a [dict] is a missing key. *)
Definition getindex (v : json) (i : nat) : result json :=
  match v with
  | JList l =>
      match nth_error l i with
      | Some x => Ret x
      | None => Raise IndexError
      end
  | JStr s =>
      match String.get i s with
      | Some c => Ret (JStr (String c EmptyString))
      | None => Raise IndexError
      end
  | JDict _ => Raise (KeyError (JInt (Z.of_nat i)))
  | _ => Raise TypeError
  end.

Definition is_substring (k s : string) : bool :=
  match String.index 0 k s with
  | Some _ => true
  | None => false
  end.

(** [k in v] for a string [k]: key of a [dict], element of a [list],
    substring of a [str]; the other values are not iterable. *)
Definition contains (v : json) (k : string) : result bool :=
  match v with
  | JDict d => Ret (dict_contains k d)
  | JList l =>
      Ret (existsb (fun x => match x with
                             | JStr s => String.eqb s k
                             | _ => false
                             end) l)
  | JStr s => Ret (is_substring k s)
  | _ => Raise TypeError
  end.

(** Truth value of [v] in [if v:]. *)
Definition truthy (v : json) : bool :=
  match v with
  | JNull => false
  | JBool b => b
  | JInt n => negb (n =? 0)
  | JFloat (FFinite m _) => negb (m =? 0)
  | JFloat _ => true
  | JStr s => negb (String.eqb s "")
  | JList l => match l with [] => false | _ => true end
  | JDict d => match d with [] => false | _ => true end
  end.

Fixpoint chars (s : string) : list json :=
  match s with
  | EmptyString => []
  | String c s' => JStr (String c EmptyString) :: chars s'
  end.

(** The items [for x in v] runs over: the elements of a [list], the keys
    of a [dict], the characters of a [str]. *)
Definition iter (v : json) : result (list json) :=
  match v with
  | JList l => Ret l
  | JDict d => Ret (map (fun kv => JStr (fst kv)) d)
  | JStr s => Ret (chars s)
  | _ => Raise TypeError
  end.

(** *** [int()] *)

(** Whitespace that [int()] strips from both ends of a string: tab,
    line feed, vertical tab, form feed, carriage return and space. *)
Definition is_space (c : ascii) : bool :=
  let n := nat_of_ascii c in
  (((9 <=? n) && (n <=? 13)) || (n =? 32))%nat.

Fixpoint lstrip (s : list ascii) : list ascii :=
  match s with
  | c :: s' => if is_space c then lstrip s' else s
  | [] => []
  end.

Definition strip (s : string) : list ascii :=
  rev (lstrip (rev (lstrip (list_ascii_of_string s)))).

Definition digit_val (c : ascii) : option Z :=
  let n := nat_of_ascii c in
  if ((48 <=? n) && (n <=? 57))%nat then Some (Z.of_nat n - 48) else None.

(** Decimal digits, single underscores allowed between two digits.
    [after_digit] tells whether the previous character was a digit. *)
Fixpoint digits (acc : Z) (after_digit : bool) (s : list ascii) : option Z :=
  match s with
  | [] => if after_digit then Some acc else None
  | c :: s' =>
      if Ascii.eqb c "_"%char
      then (if after_digit then digits acc false s' else None)
      else match digit_val c with
           | Some d => digits (10 * acc + d) true s'
           | None => None
           end
  end.

(** [int(s)] for a string of ASCII text: surrounding whitespace, an
    optional sign, decimal digits.  [None] is [ValueError].  Digits and
    spaces outside ASCII, and the limit that an interpreter may put on
    the number of digits, are left out: they differ between versions of
    the interpreter.  Where a statement is about what [int] accepts, it
    is made for every behaviour of [int] on strings (see
    [get_year_from_user_with]). *)
Definition int_of_string (s : string) : option Z :=
  match strip s with
  | c :: s' =>
      if Ascii.eqb c "-"%char then option_map Z.opp (digits 0 false s')
      else if Ascii.eqb c "+"%char then digits 0 false s'
      else digits 0 false (c :: s')
  | [] => None
  end.

(** [int(f)] truncates a finite float towards zero. *)
Definition int_of_float (f : pyfloat) : result Z :=
  match f with
  | FFinite m e => Ret (if 0 <=? e then m * 2 ^ e else Z.quot m (2 ^ (- e)))
  | FInf _ => Raise OverflowError
  | FNan => Raise ValueError
  end.

(** [int(v)] *)
Definition int (v : json) : result Z :=
  match v with
  | JInt n => Ret n
  | JBool b => Ret (if b then 1 else 0)
  | JFloat f => int_of_float f
  | JStr s =>
      match int_of_string s with
      | Some n => Ret n
      | None => Raise ValueError
      end
  | _ => Raise TypeError
  end.

(** [str(n)] of an [int], as an f-string renders it. *)
Definition str_of_int (n : Z) : string :=
  NilZero.string_of_int (Z.to_int n).

End Py.
Export Py.

(* ===================================================================== *)
(** ** Effects: a trace of events and an outcome *)
(* ===================================================================== *)

Module IO.

(** An f-string is kept as its pieces: literal text, and the values and
    exceptions that [str()] is applied to when it is rendered. *)
Inductive piece : Type :=
| Lit (s : string)
| Val (v : json)
| Exc (e : exn).

Definition fstring := list piece.

Inductive level : Type := INFO | WARNING | ERROR.

(** What the program does to the outside world, in order:
    [requests.get(url, timeout=...)], the prompt written by [input],
    one [print] call, one call of [logging.info/warning/error] with its
    message and its extra positional arguments. *)
Inductive event : Type :=
| HttpGet (url : string) (timeout : Z)
| Prompt (text : string)
| Print (text : fstring)
| Log (lvl : level) (msg : fstring) (args : list exn).

Definition io (A : Type) : Type := (list event * result A)%type.

Definition ret {A} (a : A) : io A := ([], Ret a).

Definition raise {A} (e : exn) : io A := ([], Raise e).

Definition bind {A B} (c : io A) (k : A -> io B) : io B :=
  match c with
  | (t, Ret a) => let (t', r) := k a in (t ++ t', r)
  | (t, Raise e) => (t, Raise e)
  end.

Definition lift {A} (r : result A) : io A := ([], r).

Definition emit (ev : event) : io unit := ([ev], Ret tt).

Definition print (text : fstring) : io unit := emit (Print text).

Definition log (lvl : level) (msg : fstring) (args : list exn) : io unit :=
  emit (Log lvl msg args).

(** [sys.exit(code)] raises [SystemExit]. *)
Definition sys_exit {A} (code : Z) : io A := raise (SystemExit code).

(** [try: c  except ...: h]: the handler [h] says which exceptions an
    [except] clause matches, and what the clause does. *)
Definition try_except {A} (c : io A) (h : exn -> option (io A)) : io A :=
  match c with
  | (t, Ret a) => (t, Ret a)
  | (t, Raise e) =>
      match h e with
      | Some k => let (t', r) := k in (t ++ t', r)
      | None => (t, Raise e)
      end
  end.

Declare Scope io_scope.
Delimit Scope io_scope with io.
Notation "x <- c ;; k" := (bind c (fun x => k))
  (at level 61, c at next level, right associativity) : io_scope.
Notation "c ;; k" := (bind c (fun _ => k))
  (at level 61, right associativity) : io_scope.

(** The [print] calls of a trace, i.e. what reaches standard output
    apart from prompts. *)
Definition is_print (ev : event) : bool :=
  match ev with
  | Print _ => true
  | _ => false
  end.

Definition printed (t : list event) : list event := filter is_print t.

(** The text of an f-string whose interpolated values are strings and
    integers. *)
Fixpoint text_of (f : fstring) : option string :=
  match f with
  | [] => Some ""
  | Lit s :: f' => option_map (append s) (text_of f')
  | Val (JStr s) :: f' => option_map (append s) (text_of f')
  | Val (JInt n) :: f' => option_map (append (str_of_int n)) (text_of f')
  | _ => None
  end.

End IO.
Export IO.

(* ===================================================================== *)
(** ** The [requests] library, as far as the program uses it *)
(* ===================================================================== *)

Module Requests.

(** A response: its status code, and what [response.json()] gives, the
    decoded body or the exception of the decoder. *)
Record response : Type := {
  status_code : Z;
  response_json : result json
}.

(** [response.raise_for_status()] raises [HTTPError], a
    [RequestException], on a 4xx or 5xx status. *)
Definition raise_for_status (r : response) : result unit :=
  if (400 <=? status_code r) && (status_code r <? 600)
  then Raise RequestException
  else Ret tt.

End Requests.
Export Requests.

(* ===================================================================== *)
(** ** The program *)
(* ===================================================================== *)

Definition nl : string := String (ascii_of_nat 10) EmptyString.

Record NobelApiFetcher : Type := {
  _category : string;
  _api_version : string;
  _laureates_api_url : string;
  _api_params : string;
  _all_laureates_data : json
}.

(** [NobelApiFetcher.__init__] *)
Definition __init__ (category api_version : string) (year_from year_to : Z)
  : NobelApiFetcher :=
  {| _category := category;
     _api_version := api_version;
     _laureates_api_url :=
       ("https://api.nobelprize.org/" ++ api_version ++ "/laureates")%string;
     _api_params :=
       ("limit=5000&nobelPrizeYear=" ++ str_of_int year_from
        ++ "&yearTo=" ++ str_of_int year_to
        ++ "&format=json&nobelPrizeCategory=" ++ category)%string;
     _all_laureates_data := JList [] |}.

(** The defaults of [__init__], as the [__main__] block calls it. *)
Definition default_fetcher : NobelApiFetcher := __init__ "phy" "2.1" 2000 2023.

(** The assignment [self._all_laureates_data = data]. *)
Definition set_all_laureates_data (self : NobelApiFetcher) (data : json)
  : NobelApiFetcher :=
  {| _category := _category self;
     _api_version := _api_version self;
     _laureates_api_url := _laureates_api_url self;
     _api_params := _api_params self;
     _all_laureates_data := data |}.

(** [url_with_params] in [_get_laureates_data] *)
Definition url_with_params (self : NobelApiFetcher) : string :=
  (_laureates_api_url self ++ "?" ++ _api_params self)%string.

(** The [try] body of [_print_single_laureate_info]: the three values the
    block shows. *)
Definition laureate_fields (laureate_data : json)
  : result (json * json * json) :=
  (known_name <- getitem laureate_data "knownName" ;;
   full_name <- getitem known_name "en" ;;
   has_prizes <- contains laureate_data "nobelPrizes" ;;
   if (has_prizes : bool) then
     prizes <- getitem laureate_data "nobelPrizes" ;;
     prize <- getindex prizes 0 ;;
     award_year <- getitem prize "awardYear" ;;
     prizes' <- getitem laureate_data "nobelPrizes" ;;
     prize' <- getindex prizes' 0 ;;
     affs <- getitem prize' "affiliations" ;;
     aff <- getindex affs 0 ;;
     name <- getitem aff "name" ;;
     affiliations <- getitem name "en" ;;
     Ret (full_name, award_year, affiliations)
   else
     Raise (KeyError (JStr "'nobelPrizes' not found in laureate data")))%result.

(** The [else] part of [_print_single_laureate_info]: the four lines of
    a block and the empty line after them. *)
Definition block (fields : json * json * json) : list event :=
  let '(full_name, award_year, affiliations) := fields in
  [ Print [Lit "---------------------------------"];
    Print [Lit "Full name: "; Val full_name];
    Print [Lit "Award year: "; Val award_year];
    Print [Lit "Affiliations: "; Val affiliations];
    Print [] ].

(** [NobelApiFetcher._print_single_laureate_info] *)
Definition _print_single_laureate_info (laureate_data : json) : io unit :=
  match laureate_fields laureate_data with
  | Raise (KeyError key) =>
      log ERROR [Lit "Failed to print laureate info: "; Exc (KeyError key)] []
  | Raise e => raise e
  | Ret fields => (block fields, Ret tt)
  end.

(** The test of the loop in [find_specific_year_laureates_info]:
    [int(laureate_data['nobelPrizes'][0]['awardYear'])]. *)
Definition first_prize_year (laureate_data : json) : result Z :=
  (prizes <- getitem laureate_data "nobelPrizes" ;;
   prize <- getindex prizes 0 ;;
   award_year <- getitem prize "awardYear" ;;
   int award_year)%result.

(** The [for] loop of [find_specific_year_laureates_info]; it returns the
    final value of [laureate_found]. *)
Fixpoint for_each_laureate (award_year : Z) (items : list json)
    (laureate_found : bool) : io bool :=
  match items with
  | [] => ret laureate_found
  | laureate_data :: rest =>
      (year <- lift (first_prize_year laureate_data) ;;
       if year =? award_year then
         _print_single_laureate_info laureate_data ;;
         for_each_laureate award_year rest true
       else
         for_each_laureate award_year rest laureate_found)%io
  end.

(** The part of [find_specific_year_laureates_info] after the fetch. *)
Definition report (data : json) (award_year : Z) : io unit :=
  (if truthy data then
     items <- lift (iter data) ;;
     laureate_found <- for_each_laureate award_year items false ;;
     if negb laureate_found then
       log INFO [Lit "No laureates were found in "; Val (JInt award_year);
                 Lit "!"] []
     else ret tt
   else
     log ERROR [Lit "Laureates data not found!"] [])%io.

Section Network.

(** The network: what [requests.get(url, timeout=t)] does. *)
Variable requests_get : string -> Z -> result response.

(** The [try] body of [_get_laureates_data]. *)
Definition fetch (self : NobelApiFetcher) : io json :=
  (emit (HttpGet (url_with_params self) 8) ;;
   response <- lift (requests_get (url_with_params self) 8) ;;
   lift (raise_for_status response) ;;
   data <- lift (response_json response) ;;
   has_laureates <- lift (contains data "laureates") ;;
   if (has_laureates : bool) then lift (getitem data "laureates")
   else
     log WARNING [Lit "No 'laureates' in response data"] [] ;;
     ret (JList []))%io.

(** The [except] clauses of [_get_laureates_data], in their order. *)
Definition fetch_handlers (e : exn) : option (io json) :=
  match e with
  | Timeout =>
      Some (log ERROR [Lit "Request timed out"] [] ;; sys_exit 1)%io
  | TooManyRedirects =>
      Some (log ERROR [Lit "Too many redirects"] [] ;; sys_exit 1)%io
  | _ =>
      if is_RequestException e then
        Some (log ERROR [Lit "A request error occurred:"] [e] ;; sys_exit 1)%io
      else if is_Exception e then
        Some (log ERROR [Lit "An unexpected error occurred:"] [e] ;;
              sys_exit 1)%io
      else None
  end.

(** [NobelApiFetcher._get_laureates_data] *)
Definition _get_laureates_data (self : NobelApiFetcher) : io json :=
  try_except (fetch self) fetch_handlers.

(** [NobelApiFetcher.find_specific_year_laureates_info]: the trace, the
    object after the call, and the outcome. *)
Definition find_specific_year_laureates_info (self : NobelApiFetcher)
    (award_year : Z) : list event * NobelApiFetcher * result unit :=
  match _get_laureates_data self with
  | (t, Raise e) => (t, self, Raise e)
  | (t, Ret data) =>
      let (t', r) := report data award_year in
      (t ++ t', set_all_laureates_data self data, r)
  end.

End Network.

Definition prompt_text : string :=
  "Enter the year from which to search for Nobel Prize winners: ".

(** What one pass of the loop of [get_year_from_user] prints when it
    does not return. *)
Definition not_a_year : list event :=
  [ Print [Lit "Entered number is not a year between 2000 and 2023!"];
    Print [Lit ("Try again." ++ nl)%string] ].

Definition not_a_number : list event :=
  [ Print [Lit ("Entered value is not a number! Try again." ++ nl)%string] ].

(** [get_year_from_user], reading the lines [stdin]; at the end of the
    input [input] raises [EOFError].  It gives the trace, the lines not
    read, and the outcome. *)
Fixpoint get_year_from_user (stdin : list string)
  : list event * list string * result Z :=
  match stdin with
  | [] => ([Prompt prompt_text], [], Raise EOFError)
  | line :: rest =>
      match int (JStr line) with
      | Ret year =>
          if (2000 <=? year) && (year <=? 2023)
          then ([Prompt prompt_text], rest, Ret year)
          else
            let '(t, rest', r) := get_year_from_user rest in
            (Prompt prompt_text :: not_a_year ++ t, rest', r)
      | Raise ValueError =>
          let '(t, rest', r) := get_year_from_user rest in
          (Prompt prompt_text :: not_a_number ++ t, rest', r)
      | Raise e => ([Prompt prompt_text], rest, Raise e)
      end
  end.

(** [get_year_from_user] with the builtin [int] on strings left open:
    [parse line] is the integer that [int(line)] returns, and [None] when
    it raises [ValueError], the only exception [int] raises on a string.
    What [int] accepts beyond ASCII decimals (digits and spaces of other
    scripts, a limit on the number of digits) differs between versions of
    the interpreter; a statement about this function holds for all of
    them.  [get_year_from_user] above is the instance at
    [int_of_string]. *)
Fixpoint get_year_from_user_with (parse : string -> option Z)
    (stdin : list string) : list event * list string * result Z :=
  match stdin with
  | [] => ([Prompt prompt_text], [], Raise EOFError)
  | line :: rest =>
      match parse line with
      | Some year =>
          if (2000 <=? year) && (year <=? 2023)
          then ([Prompt prompt_text], rest, Ret year)
          else
            let '(t, rest', r) := get_year_from_user_with parse rest in
            (Prompt prompt_text :: not_a_year ++ t, rest', r)
      | None =>
          let '(t, rest', r) := get_year_from_user_with parse rest in
          (Prompt prompt_text :: not_a_number ++ t, rest', r)
      end
  end.

(** The [__main__] block. *)
Definition main (requests_get : string -> Z -> result response)
    (stdin : list string) : list event * result unit :=
  let '(t, _, r) := get_year_from_user stdin in
  match r with
  | Raise e => (t, Raise e)
  | Ret year =>
      let '(t', _, r') :=
        find_specific_year_laureates_info requests_get default_fetcher year in
      (t ++ t', r')
  end.

(** The exit status of the process: 0 when the module runs to its end,
    the code of [SystemExit], 1 after a traceback. *)
Definition exit_status {A} (r : result A) : Z :=
  match r with
  | Ret _ => 0
  | Raise (SystemExit code) => code
  | Raise _ => 1
  end.

(* ===================================================================== *)
(** ** The vocabulary of the statements *)
(* ===================================================================== *)

(** The requests of a trace. *)
Definition is_get (ev : event) : bool :=
  match ev with
  | HttpGet _ _ => true
  | _ => false
  end.

(** A line that is turned down, with what is reported about it: a line
    that is not a number, or a number that is not a year between 2000 and
    2023. *)
Inductive rejected : string -> list event -> Prop :=
| rejected_not_a_number (line : string) :
    int_of_string line = None ->
    rejected line not_a_number
| rejected_not_a_year (line : string) (n : Z) :
    int_of_string line = Some n ->
    ~ (2000 <= n <= 2023) ->
    rejected line not_a_year.

(** The prompts and the reports for a run of rejected lines. *)
Definition reprompts (reports : list (list event)) : list event :=
  flat_map (fun msgs => Prompt prompt_text :: msgs) reports.

(** What the user sees when asked for the year. *)
Definition asks_for_the_year : event :=
  Prompt "Enter the year from which to search for Nobel Prize winners: ".

(** A line that is refused, given what [int] makes of lines, with what
    is printed about it: that it is not a number, or that it is not a
    year between 2000 and 2023, each time with the request to try again
    and an empty line. *)
Inductive refused (parse : string -> option Z)
  : string -> list event -> Prop :=
| refused_not_a_number (line : string) :
    parse line = None ->
    refused parse line
      [ Print [Lit ("Entered value is not a number! Try again."
                    ++ String "010"%char EmptyString)%string] ]
| refused_not_a_year (line : string) (n : Z) :
    parse line = Some n ->
    ~ (2000 <= n <= 2023) ->
    refused parse line
      [ Print [Lit "Entered number is not a year between 2000 and 2023!"];
        Print [Lit ("Try again." ++ String "010"%char EmptyString)%string] ].

(** The prompts and the reports for a run of refused lines, and the
    prompt for the line after them. *)
Definition asked_again (reports : list (list event)) : list event :=
  flat_map (fun msgs => asks_for_the_year :: msgs) reports
  ++ [asks_for_the_year].

(** A path into a decoded document, as the interface of the service is
    described: [knownName.en], [nobelPrizes[0].awardYear], ... *)
Inductive step : Type :=
| Key (k : string)
| Idx (i : nat).

Fixpoint path (v : json) (steps : list step) : result json :=
  match steps with
  | [] => Ret v
  | Key k :: steps' => (x <- getitem v k ;; path x steps')%result
  | Idx i :: steps' => (x <- getindex v i ;; path x steps')%result
  end.

(** The award year of the first prize of a record, as an integer:
    [nobelPrizes[0].awardYear], converted by [int]. *)
Definition award_year_of (r : json) : result Z :=
  (v <- path r [Key "nobelPrizes"; Idx 0; Key "awardYear"] ;; int v)%result.

(** The record [r] carries the three values [fields] of a block: its
    English display name, the award year of its first prize, the English
    name of the first affiliation of its first prize. *)
Definition shows (r : json) (fields : json * json * json) : Prop :=
  let '(full_name, award_year, affiliations) := fields in
  path r [Key "knownName"; Key "en"] = Ret full_name
  /\ path r [Key "nobelPrizes"; Idx 0; Key "awardYear"] = Ret award_year
  /\ path r [Key "nobelPrizes"; Idx 0; Key "affiliations"; Idx 0;
             Key "name"; Key "en"] = Ret affiliations.

(** The record has the key [nobelPrizes], bound to an empty list. *)
Definition empty_prizes (r : json) : Prop :=
  path r [Key "nobelPrizes"] = Ret (JList []).

(** The first prize of the record has the key [affiliations], bound to an
    empty list. *)
Definition empty_affiliations (r : json) : Prop :=
  path r [Key "nobelPrizes"; Idx 0; Key "affiliations"] = Ret (JList []).

(** The record has a first prize whose award year, as an integer, is the
    year asked for. *)
Definition matches (Y : Z) (r : json) : bool :=
  match first_prize_year r with
  | Ret y => y =? Y
  | Raise _ => false
  end.

(** What displaying [r] writes. *)
Definition shown (r : json) : list event :=
  fst (_print_single_laureate_info r).

(** The error the display routine logs when a record has no key
    [nobelPrizes]. *)
Definition prizes_not_found : event :=
  Log ERROR
    [Lit "Failed to print laureate info: ";
     Exc (KeyError (JStr "'nobelPrizes' not found in laureate data"))] [].

(** The logging calls of a trace. *)
Definition is_log (ev : event) : bool :=
  match ev with
  | Log _ _ _ => true
  | _ => false
  end.

(* ===================================================================== *)
(** ** Sample data *)
(* ===================================================================== *)

Module Sample.

Definition laureate (name year affiliation : string) : json :=
  JDict [ ("knownName", JDict [("en", JStr name)]);
          ("nobelPrizes",
           JList [ JDict [ ("awardYear", JStr year);
                           ("affiliations",
                            JList [JDict [("name",
                                           JDict [("en", JStr affiliation)])]])
                         ] ]) ].

Definition curie : json := laureate "Marie Curie" "1903" "University of Paris".

(** A network that answers every request with status 200 and a body
    that decodes to [data]. *)
Definition answers (data : json) : string -> Z -> result response :=
  fun _ _ => Ret {| status_code := 200; response_json := Ret data |}.

(** A network on which every request fails with [e]. *)
Definition fails (e : exn) : string -> Z -> result response :=
  fun _ _ => Raise e.

Definition einstein : json :=
  laureate "Albert Einstein" "1921" "Kaiser-Wilhelm-Institut".

(** A laureate whose first prize names no affiliation. *)
Definition unaffiliated : json :=
  JDict [ ("knownName", JDict [("en", JStr "A")]);
          ("nobelPrizes", JList [JDict [("awardYear", JStr "2000")]]) ].

(** A record without prizes. *)
Definition without_prizes : json :=
  JDict [("knownName", JDict [("en", JStr "A")])].

(** A named record with an empty list of prizes. *)
Definition no_prizes : json :=
  JDict [ ("knownName", JDict [("en", JStr "A")]);
          ("nobelPrizes", JList []) ].

Definition body (records : list json) : json :=
  JDict [("laureates", JList records)].

Definition ok (data : result json) : response :=
  {| status_code := 200; response_json := data |}.

(** A record with an empty list of prizes and no name: the missing name is
    found first, logged, and the record is skipped. *)
Definition nameless : json := JDict [("nobelPrizes", JList [])].

(** A response with status 200 whose body is not JSON: [response.json()]
    raises [e].  From version 2.27 of the library on this is
    [requests.exceptions.JSONDecodeError], a [RequestException]; before,
    it is the [JSONDecodeError] of the decoder, a [ValueError]. *)
Definition undecodable (e : exn) : string -> Z -> result response :=
  fun _ _ => Ret (ok (Raise e)).

End Sample.

(* ===================================================================== *)
(** ** Basic facts about the monad and the traces *)
(* ===================================================================== *)

Lemma printed_app (t t' : list event) :
  printed (t ++ t') = printed t ++ printed t'.
Proof. unfold printed. apply filter_app. Qed.

Lemma printed_block (fields : json * json * json) :
  printed (block fields) = block fields.
Proof. destruct fields as [[n y] a]. reflexivity. Qed.

Lemma bind_ret {A B} (t : list event) (a : A) (k : A -> io B) :
  bind (t, Ret a) k = (t ++ fst (k a), snd (k a)).
Proof. unfold bind. destruct (k a). reflexivity. Qed.

Lemma bind_raise {A B} (t : list event) (e : exn) (k : A -> io B) :
  bind (t, Raise e) k = (t, Raise e).
Proof. reflexivity. Qed.

(** [int] of a string returns a number or raises [ValueError]. *)
Lemma int_JStr (s : string) :
  (exists n, int_of_string s = Some n /\ int (JStr s) = Ret n) \/
  (int_of_string s = None /\ int (JStr s) = Raise ValueError).
Proof.
  simpl. destruct (int_of_string s) as [n|].
  - left. exists n. split; reflexivity.
  - right. split; reflexivity.
Qed.

(** [int] on some strings, and on the other kinds of values. *)
Example int_samples :
  map int_of_string [" 2_000 "; "+007"; "-12"; "- 5"; "1__2"; "_1"; "1_"; "";
                     "12a"; "0_0"]
  = [Some 2000; Some 7; Some (-12); None; None; None; None; None; None; Some 0]
  /\ map int [JBool true; JNull; JFloat (FFinite 19037 (-3)); JList [];
              JFloat (FInf false); JFloat FNan; JStr "12"]
     = [Ret 1; Raise TypeError; Ret 2379; Raise TypeError;
        Raise OverflowError; Raise ValueError; Ret 12].
Proof. split; reflexivity. Qed.

(** [k in d] holds exactly when [d[k]] does not raise. *)
Lemma dict_contains_get (k : string) (d : list (string * json)) :
  dict_contains k d = true <-> exists v, dict_get k d = Some v.
Proof.
  unfold dict_contains. destruct (dict_get k d) as [v|]; split.
  - intros _. exists v. reflexivity.
  - reflexivity.
  - discriminate.
  - intros [v H]. discriminate.
Qed.

(* ===================================================================== *)
(** ** The request URL *)
(* ===================================================================== *)

Lemma print_single_no_get (r : json) :
  filter is_get (fst (_print_single_laureate_info r)) = [].
Proof.
  unfold _print_single_laureate_info.
  destruct (laureate_fields r) as [[[n y] a]|e]; [reflexivity|].
  destruct e; reflexivity.
Qed.

Lemma for_each_laureate_no_get (Y : Z) (items : list json) :
  forall found, filter is_get (fst (for_each_laureate Y items found)) = [].
Proof.
  induction items as [|r rest IH]; intros found; simpl; [reflexivity|].
  unfold lift. destruct (first_prize_year r) as [y|e]; simpl; [|reflexivity].
  destruct (y =? Y).
  - destruct (_print_single_laureate_info r) as [t [[]|e]] eqn:E; simpl.
    + specialize (IH true). destruct (for_each_laureate Y rest true) as [t' r'].
      simpl in *. rewrite filter_app, IH, app_nil_r.
      pose proof (print_single_no_get r) as H. rewrite E in H. exact H.
    + pose proof (print_single_no_get r) as H. rewrite E in H. exact H.
  - specialize (IH found). destruct (for_each_laureate Y rest found).
    exact IH.
Qed.

Lemma report_no_get (data : json) (Y : Z) :
  filter is_get (fst (report data Y)) = [].
Proof.
  unfold report. destruct (truthy data); [|reflexivity].
  unfold lift. destruct (iter data) as [items|e]; simpl; [|reflexivity].
  pose proof (for_each_laureate_no_get Y items false) as H.
  destruct (for_each_laureate Y items false) as [t [found|e]]; simpl in *.
  - destruct found; simpl; rewrite ?filter_app, H; reflexivity.
  - exact H.
Qed.

Section FetchFacts.

Variable requests_get : string -> Z -> result response.

(** The [try] body performs the request first, and nothing after it is a
    request or a [print]. *)
Lemma fetch_trace (self : NobelApiFetcher) :
  exists t, fst (fetch requests_get self)
            = HttpGet (url_with_params self) 8 :: t
            /\ filter is_get t = [] /\ printed t = [].
Proof.
  unfold fetch, emit, lift, bind. simpl.
  destruct (requests_get (url_with_params self) 8) as [resp|e]; simpl;
    [|exists []; auto].
  destruct (raise_for_status resp) as [[]|e]; simpl; [|exists []; auto].
  destruct (response_json resp) as [data|e]; simpl; [|exists []; auto].
  destruct (contains data "laureates") as [[|]|e]; simpl.
  - exists []; auto.
  - eexists; split; [reflexivity|]. split; reflexivity.
  - exists []; auto.
Qed.

Lemma get_laureates_data_trace (self : NobelApiFetcher) :
  exists t, fst (_get_laureates_data requests_get self)
            = HttpGet (url_with_params self) 8 :: t
            /\ filter is_get t = [] /\ printed t = [].
Proof.
  destruct (fetch_trace self) as (t & Ht & Hg & Hp).
  unfold _get_laureates_data, try_except.
  destruct (fetch requests_get self) as [t0 [data|e]]; simpl in *; subst t0.
  - exists t. auto.
  - destruct e; simpl; eexists; (split; [reflexivity|]);
      rewrite ?filter_app, ?printed_app, Hg, Hp; split; reflexivity.
Qed.

End FetchFacts.

(** C7.  The request URL of a client built with category [c], API version
    [v] and the years [a] and [b] is the base endpoint
    [https://api.nobelprize.org/{v}/laureates], a question mark, and the
    query [limit=5000&nobelPrizeYear={a}&yearTo={b}&format=json&nobelPrizeCategory={c}].
    Whatever year is asked for later, and whatever the network answers,
    the call performs exactly one request, to that URL with a timeout of
    8 seconds, and leaves the URL of the object as it was. *)
Theorem request_url_fixed_at_construction :
  forall (c v : string) (a b : Z),
    let self := __init__ c v a b in
    url_with_params self
    = (("https://api.nobelprize.org/" ++ v ++ "/laureates") ++ "?"
       ++ "limit=5000&nobelPrizeYear=" ++ str_of_int a
       ++ "&yearTo=" ++ str_of_int b
       ++ "&format=json&nobelPrizeCategory=" ++ c)%string
    /\ forall (requests_get : string -> Z -> result response) (Y : Z),
         let '(t, self', _) :=
           find_specific_year_laureates_info requests_get self Y in
         filter is_get t = [HttpGet (url_with_params self) 8]
         /\ url_with_params self' = url_with_params self.
Proof.
  intros c v a b self. split; [reflexivity|].
  intros requests_get Y. unfold find_specific_year_laureates_info.
  destruct (get_laureates_data_trace requests_get self) as (t & Ht & Hg & _).
  destruct (_get_laureates_data requests_get self) as [t0 [data|e]];
    simpl in Ht; subst t0.
  - pose proof (report_no_get data Y) as Hr.
    destruct (report data Y) as [t' r]. simpl in Hr.
    split; [|reflexivity].
    rewrite filter_app. simpl. rewrite Hg, Hr. reflexivity.
  - split; [|reflexivity]. simpl. rewrite Hg. reflexivity.
Qed.

(** The URL the [__main__] block requests. *)
Example default_url :
  url_with_params default_fetcher
  = "https://api.nobelprize.org/2.1/laureates?limit=5000&nobelPrizeYear=2000&yearTo=2023&format=json&nobelPrizeCategory=phy".
Proof. reflexivity. Qed.

(* ===================================================================== *)
(** ** The year entered by the user *)
(* ===================================================================== *)

Lemma in_range_spec (n : Z) :
  (2000 <=? n) && (n <=? 2023) = true <-> 2000 <= n <= 2023.
Proof. rewrite andb_true_iff, !Z.leb_le. reflexivity. Qed.

(** The run of [get_year_from_user] on lines of ASCII text, in terms of
    the lines that are rejected and of the first one that is not. *)
Theorem get_year_from_user_first_valid :
  forall stdin : list string,
    (exists bad reports line rest year,
        stdin = bad ++ line :: rest
        /\ Forall2 rejected bad reports
        /\ int_of_string line = Some year
        /\ 2000 <= year <= 2023
        /\ get_year_from_user stdin
           = (reprompts reports ++ [Prompt prompt_text], rest, Ret year))
    \/ (exists reports,
           Forall2 rejected stdin reports
           /\ get_year_from_user stdin
              = (reprompts reports ++ [Prompt prompt_text], [],
                 Raise EOFError)).
Proof.
  induction stdin as [|line rest IH].
  - right. exists []. split; [constructor | reflexivity].
  - cbn [get_year_from_user].
    destruct (int_JStr line) as [(n & Hn & Hi) | (Hn & Hi)]; rewrite Hi.
    + destruct ((2000 <=? n) && (n <=? 2023)) eqn:Hr.
      * left. exists [], [], line, rest, n.
        apply in_range_spec in Hr.
        repeat split; try constructor; try easy.
      * assert (Hout : ~ (2000 <= n <= 2023)).
        { intros H. apply in_range_spec in H. congruence. }
        destruct IH as [(bad & reports & l & rest' & y & -> & Hb & Hl & Hy & ->)
                       | (reports & Hb & ->)].
        -- left. exists (line :: bad), (not_a_year :: reports), l, rest', y.
           repeat split; try easy.
           constructor; [eapply rejected_not_a_year; eassumption | exact Hb].
        -- right. exists (not_a_year :: reports). split; [|reflexivity].
           constructor; [eapply rejected_not_a_year; eassumption | exact Hb].
    + destruct IH as [(bad & reports & l & rest' & y & -> & Hb & Hl & Hy & ->)
                     | (reports & Hb & ->)].
      * left. exists (line :: bad), (not_a_number :: reports), l, rest', y.
        repeat split; try easy.
        constructor; [apply rejected_not_a_number; exact Hn | exact Hb].
      * right. exists (not_a_number :: reports). split; [|reflexivity].
        constructor; [apply rejected_not_a_number; exact Hn | exact Hb].
Qed.

(** [get_year_from_user] is [get_year_from_user_with] at the model of
    [int] on ASCII text. *)
Lemma get_year_from_user_with_int (stdin : list string) :
  get_year_from_user_with int_of_string stdin = get_year_from_user stdin.
Proof.
  induction stdin as [|line rest IH]; [reflexivity|].
  cbn [get_year_from_user_with get_year_from_user]. rewrite IH.
  destruct (int_JStr line) as [(n & Hn & Hi) | (Hn & Hi)]; rewrite Hn, Hi;
    reflexivity.
Qed.

(** C3.  Whatever [int] makes of the lines and whatever lines are
    entered, [get_year_from_user] asks again after every line that is not
    a number, printing "Entered value is not a number! Try again.", and
    after every number outside 2000..2023, printing
    "Entered number is not a year between 2000 and 2023!" and
    "Try again."; it returns the first number entered that lies in
    2000..2023 and leaves the lines after it unread, so a returned year
    is always between 2000 and 2023.  When no line qualifies, every line
    is refused in this way and the read at the end of the input raises
    [EOFError]. *)
Theorem get_year_from_user_asks_until_valid :
  forall (parse : string -> option Z) (stdin : list string),
    (exists bad reports line rest year,
        stdin = bad ++ line :: rest
        /\ Forall2 (refused parse) bad reports
        /\ parse line = Some year
        /\ 2000 <= year <= 2023
        /\ get_year_from_user_with parse stdin
           = (asked_again reports, rest, Ret year))
    \/ (exists reports,
           Forall2 (refused parse) stdin reports
           /\ get_year_from_user_with parse stdin
              = (asked_again reports, [], Raise EOFError)).
Proof.
  intros parse. induction stdin as [|line rest IH].
  - right. exists []. split; [constructor | reflexivity].
  - cbn [get_year_from_user_with].
    destruct (parse line) as [n|] eqn:Hn.
    + destruct ((2000 <=? n) && (n <=? 2023)) eqn:Hr.
      * left. exists [], [], line, rest, n.
        apply in_range_spec in Hr.
        repeat split; try constructor; try easy.
      * assert (Hout : ~ (2000 <= n <= 2023)).
        { intros H. apply in_range_spec in H. congruence. }
        pose proof (refused_not_a_year parse line n Hn Hout) as Hline.
        destruct IH as [(bad & reports & l & rest' & y & -> & Hb & Hl & Hy & ->)
                       | (reports & Hb & ->)].
        -- left. exists (line :: bad). eexists. exists l, rest', y.
           split; [reflexivity|].
           split; [constructor; [exact Hline | exact Hb]|].
           repeat split; try assumption; apply Hy.
        -- right. eexists.
           split; [constructor; [exact Hline | exact Hb] | reflexivity].
    + pose proof (refused_not_a_number parse line Hn) as Hline.
      destruct IH as [(bad & reports & l & rest' & y & -> & Hb & Hl & Hy & ->)
                     | (reports & Hb & ->)].
      * left. exists (line :: bad). eexists. exists l, rest', y.
        split; [reflexivity|].
        split; [constructor; [exact Hline | exact Hb]|].
        repeat split; try assumption; apply Hy.
      * right. eexists.
        split; [constructor; [exact Hline | exact Hb] | reflexivity].
Qed.

(** A session: a word, a year that is too early, then 2001. *)
Example get_year_session :
  get_year_from_user ["abc"; "1999"; " 2001"; "2005"]
  = (Prompt prompt_text :: not_a_number
       ++ Prompt prompt_text :: not_a_year
       ++ [Prompt prompt_text],
     ["2005"], Ret 2001).
Proof. reflexivity. Qed.

(* ===================================================================== *)
(** ** Fetching the laureates *)
(* ===================================================================== *)

Section Fetching.

Variable requests_get : string -> Z -> result response.
Variable self : NobelApiFetcher.

Let url := url_with_params self.

(** The request itself fails. *)
Lemma fetch_no_response (e : exn) :
  requests_get url 8 = Raise e ->
  fetch requests_get self = ([HttpGet url 8], Raise e).
Proof. intros H. unfold fetch, emit, lift, bind. fold url. rewrite H. reflexivity. Qed.

(** The response has a 4xx or 5xx status. *)
Lemma fetch_bad_status (resp : response) (e : exn) :
  requests_get url 8 = Ret resp ->
  raise_for_status resp = Raise e ->
  fetch requests_get self = ([HttpGet url 8], Raise e).
Proof.
  intros H1 H2. unfold fetch, emit, lift, bind. fold url.
  rewrite H1, H2. reflexivity.
Qed.

(** The body of the response cannot be decoded. *)
Lemma fetch_undecoded (resp : response) (e : exn) :
  requests_get url 8 = Ret resp ->
  raise_for_status resp = Ret tt ->
  response_json resp = Raise e ->
  fetch requests_get self = ([HttpGet url 8], Raise e).
Proof.
  intros H1 H2 H3. unfold fetch, emit, lift, bind. fold url.
  rewrite H1, H2, H3. reflexivity.
Qed.

(** The body of the response is decoded to [data]. *)
Lemma fetch_decoded (resp : response) (data : json) :
  requests_get url 8 = Ret resp ->
  raise_for_status resp = Ret tt ->
  response_json resp = Ret data ->
  fetch requests_get self
  = match contains data "laureates" with
    | Ret true => ([HttpGet url 8], getitem data "laureates")
    | Ret false =>
        ([HttpGet url 8; Log WARNING [Lit "No 'laureates' in response data"] []],
         Ret (JList []))
    | Raise e => ([HttpGet url 8], Raise e)
    end.
Proof.
  intros H1 H2 H3. unfold fetch, emit, lift, bind. fold url.
  rewrite H1, H2, H3. simpl.
  destruct (contains data "laureates") as [[|]|e]; simpl; try reflexivity;
    destruct (getitem data "laureates"); reflexivity.
Qed.

(** What [_get_laureates_data] makes of an exception of the [try] body
    that is an [Exception]: one error is logged and the process exits. *)
Lemma get_laureates_data_raise (t : list event) (e : exn) :
  fetch requests_get self = (t, Raise e) ->
  is_Exception e = true ->
  exists msg args,
    _get_laureates_data requests_get self
    = (t ++ [Log ERROR msg args], Raise (SystemExit 1)).
Proof.
  intros H He. unfold _get_laureates_data, try_except. rewrite H.
  destruct e; try discriminate; simpl; eexists; eexists; reflexivity.
Qed.

Lemma get_laureates_data_ret (t : list event) (data : json) :
  fetch requests_get self = (t, Ret data) ->
  _get_laureates_data requests_get self = (t, Ret data).
Proof. intros H. unfold _get_laureates_data, try_except. rewrite H. reflexivity. Qed.

(** C4.  When the body of a successful response decodes to an object
    without the key [laureates], [_get_laureates_data] logs a warning and
    returns the empty list; when the object has the key, it returns the
    value of the key, and logs nothing. *)
Theorem get_laureates_data_of_object :
  forall (resp : response) (d : list (string * json)),
    requests_get url 8 = Ret resp ->
    raise_for_status resp = Ret tt ->
    response_json resp = Ret (JDict d) ->
    (dict_get "laureates" d = None ->
     _get_laureates_data requests_get self
     = ([HttpGet url 8; Log WARNING [Lit "No 'laureates' in response data"] []],
        Ret (JList [])))
    /\ (forall v, dict_get "laureates" d = Some v ->
        _get_laureates_data requests_get self = ([HttpGet url 8], Ret v)).
Proof.
  intros resp d H1 H2 H3.
  pose proof (fetch_decoded resp (JDict d) H1 H2 H3) as Hf.
  simpl in Hf. unfold dict_contains in Hf.
  split.
  - intros Hd. rewrite Hd in Hf. apply get_laureates_data_ret. exact Hf.
  - intros v Hd. rewrite Hd in Hf. apply get_laureates_data_ret. exact Hf.
Qed.

(** The part of a run after the fetch has returned [data]. *)
Lemma find_after_fetch (Y : Z) (t : list event) (data : json) :
  _get_laureates_data requests_get self = (t, Ret data) ->
  find_specific_year_laureates_info requests_get self Y
  = (t ++ fst (report data Y), set_all_laureates_data self data,
     snd (report data Y)).
Proof.
  intros H. unfold find_specific_year_laureates_info. rewrite H.
  destruct (report data Y). reflexivity.
Qed.

Lemma find_after_exit (Y : Z) (t : list event) (e : exn) :
  _get_laureates_data requests_get self = (t, Raise e) ->
  find_specific_year_laureates_info requests_get self Y = (t, self, Raise e).
Proof.
  intros H. unfold find_specific_year_laureates_info. rewrite H. reflexivity.
Qed.

Lemma get_laureates_data_no_print :
  printed (fst (_get_laureates_data requests_get self)) = [].
Proof.
  destruct (get_laureates_data_trace requests_get self) as (t & -> & _ & Hp).
  exact Hp.
Qed.

(** C5.  When the fetch returns an empty list of records, the call logs
    the error "Laureates data not found!" and returns: nothing is printed
    and nothing else is logged. *)
Theorem no_data_is_reported :
  forall (Y : Z) (t : list event),
    _get_laureates_data requests_get self = (t, Ret (JList [])) ->
    find_specific_year_laureates_info requests_get self Y
    = (t ++ [Log ERROR [Lit "Laureates data not found!"] []],
       set_all_laureates_data self (JList []), Ret tt)
    /\ printed (t ++ [Log ERROR [Lit "Laureates data not found!"] []]) = [].
Proof.
  intros Y t H. split.
  - rewrite (find_after_fetch Y t (JList []) H). reflexivity.
  - rewrite printed_app. pose proof get_laureates_data_no_print as Hp.
    rewrite H in Hp. simpl in Hp. rewrite Hp. reflexivity.
Qed.

(** C8.  When the request fails with a timeout, a redirect loop or
    another request error, one error is logged (for a timeout the message
    "Request timed out"; for a redirect loop "Too many redirects";
    otherwise "A request error occurred:" with the exception as argument),
    the call does not return but leaves with [SystemExit(1)], the exit
    status of the process is 1, and nothing is printed. *)
Theorem transport_failure_exits :
  forall (Y : Z) (e : exn),
    is_RequestException e = true ->
    requests_get url 8 = Raise e ->
    let report_of_failure :=
      match e with
      | Timeout => Log ERROR [Lit "Request timed out"] []
      | TooManyRedirects => Log ERROR [Lit "Too many redirects"] []
      | _ => Log ERROR [Lit "A request error occurred:"] [e]
      end in
    let '(t, self', r) :=
      find_specific_year_laureates_info requests_get self Y in
    t = [HttpGet url 8; report_of_failure]
    /\ r = Raise (SystemExit 1)
    /\ exit_status r = 1
    /\ printed t = []
    /\ self' = self.
Proof.
  intros Y e He H. apply fetch_no_response in H.
  unfold find_specific_year_laureates_info, _get_laureates_data, try_except.
  rewrite H.
  destruct e; try discriminate; simpl; repeat split.
Qed.

(** X9.  A response with a 4xx or 5xx status is a request error like
    the others: [raise_for_status] raises, the error
    "A request error occurred:" is logged with the exception as argument,
    and the call leaves with [SystemExit(1)] without reading the body. *)
Lemma bad_status_exits (Y : Z) (resp : response) :
  requests_get url 8 = Ret resp ->
  (400 <=? status_code resp) && (status_code resp <? 600) = true ->
  find_specific_year_laureates_info requests_get self Y
  = ([HttpGet url 8;
      Log ERROR [Lit "A request error occurred:"] [RequestException]],
     self, Raise (SystemExit 1)).
Proof.
  intros H Hs.
  assert (Hr : raise_for_status resp = Raise RequestException).
  { unfold raise_for_status. rewrite Hs. reflexivity. }
  unfold find_specific_year_laureates_info, _get_laureates_data, try_except.
  rewrite (fetch_bad_status resp _ H Hr). reflexivity.
Qed.

(** C10, as amended.  When the response arrives with a good status but
    its body cannot be decoded, the exception of the decoder leaves the
    [try] body; and whenever an exception of the class [Exception] leaves
    the [try] body, one error is logged and the call leaves with
    [SystemExit(1)]: the exit status is 1, as after a transport failure,
    no empty result is returned and nothing is printed.  The error is
    logged by the last [except] clause, as
    "An unexpected error occurred:" with the exception as argument, when
    the exception is not a request exception, and by the clause for
    timeouts, redirects or request exceptions when it is one. *)
Theorem unexpected_error_exits :
  forall (Y : Z) (e : exn),
    is_Exception e = true ->
    (forall resp,
        requests_get url 8 = Ret resp ->
        raise_for_status resp = Ret tt ->
        response_json resp = Raise e ->
        fetch requests_get self = ([HttpGet url 8], Raise e))
    /\ (forall t,
           fetch requests_get self = (t, Raise e) ->
           let report_of_handler :=
             match e with
             | Timeout => Log ERROR [Lit "Request timed out"] []
             | TooManyRedirects => Log ERROR [Lit "Too many redirects"] []
             | RequestException =>
                 Log ERROR [Lit "A request error occurred:"] [e]
             | _ => Log ERROR [Lit "An unexpected error occurred:"] [e]
             end in
           _get_laureates_data requests_get self
           = (t ++ [report_of_handler], Raise (SystemExit 1))
           /\ find_specific_year_laureates_info requests_get self Y
              = (t ++ [report_of_handler], self, Raise (SystemExit 1))
           /\ exit_status (snd (find_specific_year_laureates_info
                                  requests_get self Y)) = 1
           /\ printed (fst (fst (find_specific_year_laureates_info
                                   requests_get self Y))) = []).
Proof.
  intros Y e He. split.
  - intros resp H1 H2 H3. apply (fetch_undecoded resp e H1 H2 H3).
  - intros t H report_of_handler.
    assert (Hg : _get_laureates_data requests_get self
                 = (t ++ [report_of_handler], Raise (SystemExit 1))).
    { unfold _get_laureates_data, try_except. rewrite H.
      subst report_of_handler. destruct e; try discriminate; reflexivity. }
    pose proof get_laureates_data_no_print as Hp. rewrite Hg in Hp.
    rewrite (find_after_exit Y _ _ Hg). simpl in *.
    repeat split; assumption.
Qed.

End Fetching.

(* ===================================================================== *)
(** ** Displaying one laureate *)
(* ===================================================================== *)

(** One step through a chain of subscripts: case analysis on the first
    one that is evaluated. *)
Ltac step_result :=
  match goal with
  | H : context [rbind ?x _] |- _ =>
      lazymatch x with
      | Ret _ => fail
      | Raise _ => fail
      | _ => let E := fresh "E" in destruct x eqn:E
      end
  | H : context [if ?b then _ else _] |- _ => destruct b
  | |- context [rbind ?x _] =>
      lazymatch x with
      | Ret _ => fail
      | Raise _ => fail
      | _ => let E := fresh "E" in destruct x eqn:E
      end
  | |- context [if ?b then _ else _] => destruct b
  end; cbn [rbind] in *; try discriminate.

(** The [try] body of the display routine succeeds exactly on the records
    that carry the three values, and yields them. *)
Lemma laureate_fields_shows (r : json) (fields : json * json * json) :
  laureate_fields r = Ret fields <-> shows r fields.
Proof.
  destruct fields as [[n y] a]. unfold laureate_fields, shows. cbn [path].
  split.
  - intros H. repeat step_result.
    injection H as -> -> ->. repeat split.
  - intros (H1 & H2 & H3).
    assert (Hc : contains r "nobelPrizes" = Ret true).
    { destruct r; try discriminate. simpl in *. unfold dict_contains.
      destruct (dict_get "nobelPrizes" d); [reflexivity | discriminate]. }
    rewrite Hc. cbn [rbind].
    repeat step_result. congruence.
Qed.

Lemma print_single_ret (r : json) (fields : json * json * json) :
  laureate_fields r = Ret fields ->
  _print_single_laureate_info r = (block fields, Ret tt).
Proof. intros H. unfold _print_single_laureate_info. rewrite H. reflexivity. Qed.

(** A missing key is logged and the record is skipped. *)
Lemma print_single_key_error (r : json) (key : json) :
  laureate_fields r = Raise (KeyError key) ->
  _print_single_laureate_info r
  = ([Log ERROR [Lit "Failed to print laureate info: "; Exc (KeyError key)] []],
     Ret tt).
Proof. intros H. unfold _print_single_laureate_info. rewrite H. reflexivity. Qed.

(** Any other exception leaves the routine. *)
Lemma print_single_raise (r : json) (e : exn) :
  laureate_fields r = Raise e ->
  (forall key, e <> KeyError key) ->
  _print_single_laureate_info r = ([], Raise e).
Proof.
  intros H Hk. unfold _print_single_laureate_info. rewrite H.
  destruct e; try reflexivity. exfalso. apply (Hk key). reflexivity.
Qed.

(** C9, as amended.  For a record whose [knownName.en] is present: when
    its [nobelPrizes] is an empty list, or when its first prize has an
    [awardYear] and an empty list of [affiliations], the index [0] is out
    of range, the handler of the display routine, which catches
    [KeyError] only, does not apply, and the routine raises [IndexError]
    without logging or printing anything. *)
Theorem empty_sequence_is_unhandled :
  forall (r full_name : json),
    path r [Key "knownName"; Key "en"] = Ret full_name ->
    empty_prizes r
    \/ (empty_affiliations r
        /\ exists award_year,
             path r [Key "nobelPrizes"; Idx 0; Key "awardYear"]
             = Ret award_year) ->
    _print_single_laureate_info r = ([], Raise IndexError).
Proof.
  intros r n Hn H.
  apply print_single_raise; [|intros key; discriminate].
  unfold empty_prizes, empty_affiliations in H.
  unfold laureate_fields. cbn [path] in *.
  assert (Hc : contains r "nobelPrizes" = Ret true).
  { destruct r; try discriminate. simpl in *. unfold dict_contains.
    destruct (dict_get "nobelPrizes" d); [reflexivity|].
    destruct H as [H | (H & _)]; discriminate. }
  rewrite Hc.
  destruct H as [H | (Ha & y & Hy)]; repeat step_result;
    repeat match goal with
           | H : Ret _ = Ret _ |- _ => injection H as ->
           end;
    simpl in *; try discriminate; congruence.
Qed.

(** C9 as stated does not hold: displaying [Sample.nameless], whose
    [nobelPrizes] is an empty list, raises nothing. *)
Lemma empty_sequence_can_be_logged :
  ~ (forall r, empty_prizes r \/ empty_affiliations r ->
               exists e, snd (_print_single_laureate_info r) = Raise e).
Proof.
  intros H. destruct (H Sample.nameless) as [e He].
  - left. reflexivity.
  - discriminate He.
Qed.

Example nameless_is_logged :
  _print_single_laureate_info Sample.nameless
  = ([Log ERROR [Lit "Failed to print laureate info: ";
                 Exc (KeyError (JStr "knownName"))] []], Ret tt).
Proof. reflexivity. Qed.

(* ===================================================================== *)
(** ** The scan of the fetched records *)
(* ===================================================================== *)

Section Scan.

Variable Y : Z.

Lemma for_each_laureate_raise (r : json) (rest : list json) (e : exn)
    (found : bool) :
  first_prize_year r = Raise e ->
  for_each_laureate Y (r :: rest) found = ([], Raise e).
Proof. intros H. simpl. rewrite H. reflexivity. Qed.

Lemma for_each_laureate_skip (r : json) (rest : list json) (found : bool) :
  (exists y, first_prize_year r = Ret y) ->
  matches Y r = false ->
  for_each_laureate Y (r :: rest) found = for_each_laureate Y rest found.
Proof.
  intros [y Hy] Hm. unfold matches in Hm. rewrite Hy in Hm.
  simpl. rewrite Hy. unfold lift, bind. rewrite Hm. simpl.
  destruct (for_each_laureate Y rest found). reflexivity.
Qed.

Lemma for_each_laureate_match (r : json) (rest : list json) (found : bool) :
  matches Y r = true ->
  for_each_laureate Y (r :: rest) found
  = (_print_single_laureate_info r ;; for_each_laureate Y rest true)%io.
Proof.
  intros Hm. unfold matches in Hm.
  destruct (first_prize_year r) as [y|e] eqn:Hy; [|discriminate].
  simpl. rewrite Hy. unfold lift. cbn [bind]. rewrite Hm.
  destruct (_ ;; _)%io. reflexivity.
Qed.

(** As long as the test of the loop can be evaluated on every record and
    no display raises, the loop displays the matching records in their
    order and tells whether there was one. *)
Lemma for_each_laureate_run (l : list json) :
  Forall (fun r => exists y, first_prize_year r = Ret y) l ->
  Forall (fun r => snd (_print_single_laureate_info r) = Ret tt)
         (filter (matches Y) l) ->
  forall found,
    for_each_laureate Y l found
    = (flat_map shown (filter (matches Y) l),
       Ret (found || existsb (matches Y) l)).
Proof.
  induction l as [|r rest IH]; intros Hy Hp found.
  - simpl. rewrite orb_false_r. reflexivity.
  - inversion Hy as [|? ? Hr Hrest]; subst.
    cbn [filter existsb] in *. destruct (matches Y r) eqn:Hm.
    + inversion Hp as [|? ? Hpr Hprest]; subst.
      rewrite (for_each_laureate_match r rest found Hm).
      rewrite (IH Hrest Hprest true).
      cbn [flat_map]. change (shown r) with (fst (_print_single_laureate_info r)).
      destruct (_print_single_laureate_info r) as [t o]. simpl in Hpr. subst o.
      cbn [bind fst orb]. rewrite orb_true_r. reflexivity.
    + rewrite (for_each_laureate_skip r rest found Hr Hm).
      rewrite (IH Hrest Hp found). reflexivity.
Qed.

(** A record on which the test of the loop raises stops the loop: there,
    or earlier. *)
Lemma for_each_laureate_stops (l : list json) (r : json) :
  In r l ->
  (exists e, first_prize_year r = Raise e) ->
  forall found, exists e, snd (for_each_laureate Y l found) = Raise e.
Proof.
  intros Hin [e He]. induction l as [|h rest IH]; intros found; [easy|].
  destruct (first_prize_year h) as [y|e'] eqn:Hh.
  - assert (Hrest : In r rest).
    { destruct Hin as [->|H]; [congruence | exact H]. }
    destruct (matches Y h) eqn:Hm.
    + rewrite (for_each_laureate_match h rest found Hm).
      destruct (_print_single_laureate_info h) as [t [[]|e'']].
      * destruct (IH Hrest true) as [e1 H1].
        exists e1. rewrite bind_ret. exact H1.
      * exists e''. reflexivity.
    + rewrite (for_each_laureate_skip h rest found (ex_intro _ y Hh) Hm).
      apply (IH Hrest).
  - exists e'. rewrite (for_each_laureate_raise h rest e' found Hh).
    reflexivity.
Qed.

(** The report on a list of records, under the conditions of
    [for_each_laureate_run]. *)
Lemma report_list (l : list json) :
  Forall (fun r => exists y, first_prize_year r = Ret y) l ->
  Forall (fun r => snd (_print_single_laureate_info r) = Ret tt)
         (filter (matches Y) l) ->
  report (JList l) Y
  = (flat_map shown (filter (matches Y) l)
       ++ match l with
          | [] => [Log ERROR [Lit "Laureates data not found!"] []]
          | _ :: _ =>
              if existsb (matches Y) l then []
              else [Log INFO [Lit "No laureates were found in ";
                              Val (JInt Y); Lit "!"] []]
          end,
     Ret tt).
Proof.
  intros Hy Hp. unfold report.
  destruct l as [|r rest]; [reflexivity|].
  cbn [truthy iter]. unfold lift. cbn [bind].
  rewrite (for_each_laureate_run (r :: rest) Hy Hp false).
  cbn [orb]. destruct (existsb (matches Y) (r :: rest)); cbn;
    rewrite ?app_nil_r; reflexivity.
Qed.

End Scan.

(* ===================================================================== *)
(** ** The report for a year *)
(* ===================================================================== *)




Section Report.

Variable requests_get : string -> Z -> result response.
Variable self : NobelApiFetcher.

Let url := url_with_params self.


(** The test of the loop computes the award year of the first prize. *)
Lemma first_prize_year_path (r : json) :
  first_prize_year r = award_year_of r.
Proof.
  unfold first_prize_year, award_year_of. cbn [path].
  destruct (getitem r "nobelPrizes") as [prizes|e]; cbn [rbind]; [|reflexivity].
  destruct (getindex prizes 0) as [prize|e]; cbn [rbind]; [|reflexivity].
  destruct (getitem prize "awardYear") as [v|e]; reflexivity.
Qed.

(** C6, as amended.  When the fetch returns a non-empty list of records
    each of which has a first prize whose award year converts to an
    integer other than the requested year, nothing is printed, and after
    the scan the message "No laureates were found in {Y}!" is logged at
    level INFO. *)
Theorem no_match_is_reported :
  forall (Y : Z) (t : list event) (l : list json),
    l <> [] ->
    _get_laureates_data requests_get self = (t, Ret (JList l)) ->
    Forall (fun r => exists y, award_year_of r = Ret y /\ y <> Y) l ->
    let info :=
      Log INFO [Lit "No laureates were found in "; Val (JInt Y); Lit "!"] [] in
    find_specific_year_laureates_info requests_get self Y
    = (t ++ [info], set_all_laureates_data self (JList l), Ret tt)
    /\ printed (t ++ [info]) = [].
Proof.
  intros Y t l Hne Hg Hall info.
  assert (Hy : Forall (fun r => exists y, first_prize_year r = Ret y) l).
  { eapply Forall_impl; [|exact Hall]. intros r (y & H & _).
    exists y. rewrite first_prize_year_path. exact H. }
  assert (Hm : forall r, In r l -> matches Y r = false).
  { intros r Hin. rewrite Forall_forall in Hall.
    destruct (Hall r Hin) as (y & H & Hneq). unfold matches.
    rewrite first_prize_year_path, H.
    apply Z.eqb_neq. exact Hneq. }
  assert (Hf : filter (matches Y) l = []).
  { clear -Hm. induction l as [|r rest IH]; [reflexivity|].
    simpl. rewrite (Hm r (or_introl eq_refl)). apply IH.
    intros r' H. apply Hm. right. exact H. }
  assert (He : existsb (matches Y) l = false).
  { clear -Hm. induction l as [|r rest IH]; [reflexivity|].
    simpl. rewrite (Hm r (or_introl eq_refl)). apply IH.
    intros r' H. apply Hm. right. exact H. }
  split.
  - rewrite (find_after_fetch requests_get self Y _ _ Hg).
    rewrite (report_list Y l Hy); [|rewrite Hf; constructor].
    rewrite Hf, He. destruct l; [contradiction|]. reflexivity.
  - rewrite printed_app.
    pose proof (get_laureates_data_no_print requests_get self) as Hp.
    rewrite Hg in Hp. simpl in Hp. rewrite Hp. reflexivity.
Qed.

(** A record that is an object without the key [nobelPrizes]: the test of
    the loop raises [KeyError]. *)
Lemma first_prize_year_missing (d : list (string * json)) :
  dict_get "nobelPrizes" d = None ->
  first_prize_year (JDict d) = Raise (KeyError (JStr "nobelPrizes")).
Proof. intros H. unfold first_prize_year. simpl. rewrite H. reflexivity. Qed.

(** C2 fails on the code.  When the fetched list holds a record without
    the key [nobelPrizes], the call does not return: an exception leaves
    it, raised by the test of the loop before the display routine, which
    would log the missing key, is reached. *)
Theorem missing_prizes_stop_the_report :
  forall (Y : Z) (t : list event) (l : list json) (d : list (string * json)),
    _get_laureates_data requests_get self = (t, Ret (JList l)) ->
    In (JDict d) l ->
    dict_get "nobelPrizes" d = None ->
    exists e,
      snd (find_specific_year_laureates_info requests_get self Y) = Raise e.
Proof.
  intros Y t l d Hg Hin Hd.
  rewrite (find_after_fetch requests_get self Y _ _ Hg). cbn [snd].
  unfold report. destruct l as [|r rest]; [contradiction|].
  cbn [truthy iter]. unfold lift. cbn [bind].
  destruct (for_each_laureate_stops Y (r :: rest) (JDict d) Hin
              (ex_intro _ _ (first_prize_year_missing d Hd)) false)
    as [e He].
  exists e. destruct (for_each_laureate Y (r :: rest) false) as [t' o].
  simpl in He. subst o. reflexivity.
Qed.

End Report.

(* ===================================================================== *)
(** ** The whole program *)
(* ===================================================================== *)

(** Once a year has been entered, a failing request ends the program
    with exit status 1, and nothing is printed after the prompts. *)
Lemma main_exits_on_request_failure
    (requests_get : string -> Z -> result response) (stdin rest : list string)
    (t : list event) (year : Z) (e : exn) :
  get_year_from_user stdin = (t, rest, Ret year) ->
  requests_get (url_with_params default_fetcher) 8 = Raise e ->
  is_RequestException e = true ->
  exists t',
    main requests_get stdin = (t ++ t', Raise (SystemExit 1))
    /\ printed t' = []
    /\ exit_status (snd (main requests_get stdin)) = 1.
Proof.
  intros Hy H He. unfold main. rewrite Hy.
  apply fetch_no_response in H.
  unfold find_specific_year_laureates_info, _get_laureates_data, try_except.
  rewrite H.
  destruct e; try discriminate; simpl; eexists; repeat split.
Qed.

(* ===================================================================== *)
(** ** What the builtins raise *)
(* ===================================================================== *)

Lemma getitem_raises (v : json) (k : string) (e : exn) :
  getitem v k = Raise e -> e = TypeError \/ e = KeyError (JStr k).
Proof.
  destruct v; simpl; intros H; try (injection H as <-; left; reflexivity).
  destruct (dict_get k d); [discriminate|].
  injection H as <-. right. reflexivity.
Qed.

Lemma getindex_raises (v : json) (i : nat) (e : exn) :
  getindex v i = Raise e ->
  e = TypeError \/ e = IndexError \/ e = KeyError (JInt (Z.of_nat i)).
Proof.
  destruct v; simpl; intros H; try (injection H as <-; auto; fail).
  - destruct (String.get i s); [discriminate|]. injection H as <-. auto.
  - destruct (nth_error l i); [discriminate|]. injection H as <-. auto.
Qed.

Lemma contains_raises (v : json) (k : string) (e : exn) :
  contains v k = Raise e -> e = TypeError.
Proof.
  destruct v; simpl; intros H; try discriminate; injection H as <-;
    reflexivity.
Qed.

Lemma iter_raises (v : json) (e : exn) :
  iter v = Raise e -> e = TypeError.
Proof.
  destruct v; simpl; intros H; try discriminate; injection H as <-;
    reflexivity.
Qed.

Lemma int_raises (v : json) (e : exn) :
  int v = Raise e -> e = TypeError \/ e = ValueError \/ e = OverflowError.
Proof.
  destruct v; simpl; intros H; try discriminate;
    try (injection H as <-; auto; fail).
  - destruct f; simpl in H; try discriminate; injection H as <-; auto.
  - destruct (int_of_string s); [discriminate|]. injection H as <-. auto.
Qed.

(** Uses what is known about a subscript that raised. *)
Ltac raised :=
  repeat match goal with
         | H : Raise _ = Raise _ |- _ => injection H as <-
         | E : getitem _ _ = Raise _ |- _ =>
             apply getitem_raises in E; destruct E as [-> | ->]
         | E : getindex _ _ = Raise _ |- _ =>
             apply getindex_raises in E; destruct E as [-> | [-> | ->]]
         | E : contains _ _ = Raise _ |- _ =>
             apply contains_raises in E; subst
         | E : int _ = Raise _ |- _ =>
             apply int_raises in E; destruct E as [-> | [-> | ->]]
         end.

(** The [try] body of the display routine raises [TypeError],
    [IndexError] or [KeyError], nothing else. *)
Lemma laureate_fields_raises (r : json) (e : exn) :
  laureate_fields r = Raise e ->
  e = TypeError \/ e = IndexError \/ exists key, e = KeyError key.
Proof.
  unfold laureate_fields. intros H. repeat step_result; raised; eauto.
Qed.

(** The test of the loop raises exceptions of the class [Exception]
    only, and never [SystemExit]. *)
Lemma first_prize_year_raises (r : json) (e : exn) :
  first_prize_year r = Raise e -> is_Exception e = true.
Proof.
  unfold first_prize_year. intros H. repeat step_result; raised; reflexivity.
Qed.

(** A record on which the test of the loop succeeds is an object with the
    key [nobelPrizes]. *)
Lemma first_prize_year_has_prizes (r : json) (y : Z) :
  first_prize_year r = Ret y -> contains r "nobelPrizes" = Ret true.
Proof.
  unfold first_prize_year. intros H.
  destruct r; try discriminate. simpl in *. unfold dict_contains.
  destruct (dict_get "nobelPrizes" d); [reflexivity | discriminate].
Qed.

(* ===================================================================== *)
(** ** More on the display routine *)
(* ===================================================================== *)

(** X1.  The display routine does one of three things: it prints the
    block of a record that carries the three values and returns; it logs
    one error naming a missing key and returns; or it raises [TypeError]
    or [IndexError] having written nothing.  So it never raises
    [KeyError] and never prints part of a block. *)
Theorem display_prints_logs_or_raises :
  forall r : json,
    (exists fields,
        shows r fields
        /\ _print_single_laureate_info r = (block fields, Ret tt))
    \/ (exists key,
           laureate_fields r = Raise (KeyError key)
           /\ _print_single_laureate_info r
              = ([Log ERROR [Lit "Failed to print laureate info: ";
                             Exc (KeyError key)] []], Ret tt))
    \/ (exists e,
           (e = TypeError \/ e = IndexError)
           /\ _print_single_laureate_info r = ([], Raise e)).
Proof.
  intros r. destruct (laureate_fields r) as [fields|e] eqn:E.
  - left. exists fields. split.
    + apply laureate_fields_shows. exact E.
    + apply print_single_ret. exact E.
  - destruct (laureate_fields_raises r e E) as [-> | [-> | [key ->]]].
    + right. right. exists TypeError. split; [auto|].
      apply print_single_raise; [exact E | discriminate].
    + right. right. exists IndexError. split; [auto|].
      apply print_single_raise; [exact E | discriminate].
    + right. left. exists key. split; [reflexivity|].
      apply print_single_key_error. exact E.
Qed.

(** X2.  Called on its own with an object that has [knownName.en] but no
    key [nobelPrizes], the display routine logs the error
    "'nobelPrizes' not found in laureate data", prints nothing and
    returns. *)
Theorem display_without_prizes_is_logged :
  forall (d : list (string * json)) (full_name : json),
    path (JDict d) [Key "knownName"; Key "en"] = Ret full_name ->
    dict_get "nobelPrizes" d = None ->
    _print_single_laureate_info (JDict d) = ([prizes_not_found], Ret tt).
Proof.
  intros d n Hn Hd. unfold prizes_not_found.
  apply print_single_key_error.
  unfold laureate_fields. cbn [path] in Hn.
  repeat step_result; simpl in *; unfold dict_contains in *;
    rewrite Hd in *; try discriminate; congruence.
Qed.

(** A record that passed the test of the loop is never reported as
    lacking [nobelPrizes]. *)
Lemma shown_after_test (r : json) (y : Z) :
  first_prize_year r = Ret y -> ~ In prizes_not_found (shown r).
Proof.
  intros Hy Hin. apply first_prize_year_has_prizes in Hy.
  unfold shown, _print_single_laureate_info in Hin.
  destruct (laureate_fields r) as [[[n a] b]|e] eqn:E.
  - simpl in Hin. unfold prizes_not_found in Hin.
    repeat destruct Hin as [Hin|Hin]; try discriminate Hin; exact Hin.
  - assert (Hk : e <> KeyError (JStr "'nobelPrizes' not found in laureate data")).
    { clear Hin. unfold laureate_fields in E. rewrite Hy in E.
      repeat step_result; raised; discriminate. }
    destruct e; simpl in Hin; try contradiction.
    destruct Hin as [Hin|[]]. unfold prizes_not_found in Hin.
    injection Hin as ->. apply Hk. reflexivity.
Qed.

Lemma for_each_laureate_no_prizes_error (Y : Z) (l : list json) :
  forall found,
    ~ In prizes_not_found (fst (for_each_laureate Y l found)).
Proof.
  induction l as [|r rest IH]; intros found; [intros []|].
  destruct (first_prize_year r) as [y|e] eqn:Hy.
  - destruct (matches Y r) eqn:Hm.
    + rewrite (for_each_laureate_match Y r rest found Hm).
      pose proof (shown_after_test r y Hy) as Hs. unfold shown in Hs.
      destruct (_print_single_laureate_info r) as [t [[]|e]]; cbn [fst] in Hs.
      * rewrite bind_ret. cbn [fst]. rewrite in_app_iff.
        intros [H|H]; [exact (Hs H) | exact (IH true H)].
      * rewrite bind_raise. exact Hs.
    + rewrite (for_each_laureate_skip Y r rest found (ex_intro _ y Hy) Hm).
      apply IH.
  - rewrite (for_each_laureate_raise Y r rest e found Hy). intros [].
Qed.

(** X3.  The check for a missing [nobelPrizes] in the display routine
    cannot fire from [find_specific_year_laureates_info]: whatever the
    network answers and whatever year is asked for, the call never logs
    the error "'nobelPrizes' not found in laureate data", because the
    test of the loop has already read the key. *)
Theorem prizes_guard_is_dead_in_the_loop :
  forall (requests_get : string -> Z -> result response)
         (self : NobelApiFetcher) (Y : Z),
    ~ In prizes_not_found
         (fst (fst (find_specific_year_laureates_info requests_get self Y))).
Proof.
  intros requests_get self Y. unfold find_specific_year_laureates_info.
  assert (Hf : ~ In prizes_not_found
                    (fst (_get_laureates_data requests_get self))).
  { unfold _get_laureates_data, try_except, fetch, emit, lift, bind.
    destruct (requests_get (url_with_params self) 8) as [resp|e1]; simpl.
    - destruct (raise_for_status resp) as [[]|e2] eqn:E2; simpl.
      + destruct (response_json resp) as [data|e3]; simpl.
        * destruct (contains data "laureates") as [[|]|e4]; simpl.
          -- destruct (getitem data "laureates") as [v|e5]; simpl.
             ++ intros [H|[]]; discriminate H.
             ++ destruct e5; simpl; unfold prizes_not_found;
                  intros H; repeat destruct H as [H|H]; try discriminate H;
                  exact H.
          -- unfold prizes_not_found.
             intros H; repeat destruct H as [H|H]; try discriminate H;
               exact H.
          -- destruct e4; simpl; unfold prizes_not_found;
               intros H; repeat destruct H as [H|H]; try discriminate H;
               exact H.
        * destruct e3; simpl; unfold prizes_not_found;
            intros H; repeat destruct H as [H|H]; try discriminate H;
            exact H.
      + destruct e2; simpl; unfold prizes_not_found;
          intros H; repeat destruct H as [H|H]; try discriminate H; exact H.
    - destruct e1; simpl; unfold prizes_not_found;
        intros H; repeat destruct H as [H|H]; try discriminate H; exact H. }
  destruct (_get_laureates_data requests_get self) as [t [data|e]];
    [|exact Hf].
  assert (Hr : ~ In prizes_not_found (fst (report data Y))).
  { unfold report. destruct (truthy data).
    - unfold lift. destruct (iter data) as [items|e]; [|intros []].
      rewrite bind_ret. cbn [fst app].
      pose proof (for_each_laureate_no_prizes_error Y items false) as Hl.
      destruct (for_each_laureate Y items false) as [t' [found|e]];
        cbn [fst] in Hl; [|rewrite bind_raise; exact Hl].
      rewrite bind_ret. cbn [fst].
      destruct found; simpl; rewrite ?app_nil_r; [exact Hl|].
      rewrite in_app_iff. intros [H|[H|[]]]; [exact (Hl H) | discriminate H].
    - simpl. intros [H|[]]. discriminate H. }
  destruct (report data Y) as [t' r]. cbn [fst] in *.
  rewrite in_app_iff. intros [H|H]; [exact (Hf H) | exact (Hr H)].
Qed.

(* ===================================================================== *)
(** ** More on the scan *)
(* ===================================================================== *)

(** X4.  The loop handles a list piece by piece: after a first part on
    which every test can be evaluated and no display raises, the blocks
    and errors of that part have been written, the flag tells whether
    the part had a matching record, and the loop goes on with the rest,
    whatever the rest does. *)
Theorem for_each_laureate_app :
  forall (Y : Z) (l1 l2 : list json) (found : bool),
    Forall (fun r => exists y, first_prize_year r = Ret y) l1 ->
    Forall (fun r => snd (_print_single_laureate_info r) = Ret tt)
           (filter (matches Y) l1) ->
    for_each_laureate Y (l1 ++ l2) found
    = (flat_map shown (filter (matches Y) l1)
         ++ fst (for_each_laureate Y l2 (found || existsb (matches Y) l1)),
       snd (for_each_laureate Y l2 (found || existsb (matches Y) l1))).
Proof.
  intros Y l1 l2. induction l1 as [|r rest IH]; intros found Hy Hp.
  - simpl. rewrite orb_false_r.
    destruct (for_each_laureate Y l2 found). reflexivity.
  - inversion Hy as [|? ? Hr Hrest]; subst.
    cbn [app filter existsb] in *. destruct (matches Y r) eqn:Hm.
    + inversion Hp as [|? ? Hpr Hprest]; subst.
      rewrite (for_each_laureate_match Y r (rest ++ l2) found Hm).
      rewrite (IH true Hrest Hprest).
      cbn [flat_map]. change (shown r) with (fst (_print_single_laureate_info r)).
      destruct (_print_single_laureate_info r) as [t o]. simpl in Hpr. subst o.
      cbn [bind fst orb]. rewrite orb_true_r, app_assoc. reflexivity.
    + rewrite (for_each_laureate_skip Y r (rest ++ l2) found Hr Hm).
      rewrite (IH found Hrest Hp). reflexivity.
Qed.

(** The blocks the loop prints, whatever the records are. *)
Lemma for_each_laureate_blocks (Y : Z) (l : list json) :
  forall found,
  exists fs,
    printed (fst (for_each_laureate Y l found)) = flat_map block fs
    /\ Forall (fun f => exists r, In r l /\ matches Y r = true /\ shows r f) fs
    /\ (List.length fs <= List.length (filter (matches Y) l))%nat.
Proof.
  induction l as [|r rest IH]; intros found.
  - exists []. repeat split; [constructor | simpl; lia].
  - destruct (first_prize_year r) as [y|e] eqn:Hy.
    + destruct (matches Y r) eqn:Hm.
      * rewrite (for_each_laureate_match Y r rest found Hm).
        destruct (IH true) as (fs & Hp & Hin & Hlen).
        assert (Hin' : Forall (fun f => exists r0, In r0 (r :: rest)
                                         /\ matches Y r0 = true /\ shows r0 f) fs).
        { eapply Forall_impl; [|exact Hin].
          intros f (r0 & H1 & H2 & H3). exists r0. simpl. auto. }
        cbn [filter]. rewrite Hm. cbn [List.length].
        destruct (laureate_fields r) as [f|e] eqn:E.
        -- rewrite (print_single_ret r f E), bind_ret. cbn [fst].
           exists (f :: fs). cbn [flat_map List.length].
           rewrite printed_app, printed_block, Hp.
           repeat split; [|lia].
           constructor; [|exact Hin'].
           exists r. simpl. repeat split; auto.
           apply laureate_fields_shows. exact E.
        -- destruct e;
             try (rewrite (print_single_raise r _ E), bind_raise;
                  [exists []; repeat split; [constructor | simpl; lia]
                  | discriminate]).
           rewrite (print_single_key_error r key E), bind_ret. cbn [fst].
           exists fs. rewrite printed_app, Hp.
           repeat split; [exact Hin' | lia].
      * rewrite (for_each_laureate_skip Y r rest found (ex_intro _ y Hy) Hm).
        destruct (IH found) as (fs & Hp & Hin & Hlen).
        exists fs. cbn [filter]. rewrite Hm. repeat split; [exact Hp| |exact Hlen].
        eapply Forall_impl; [|exact Hin].
        intros f (r0 & H1 & H2 & H3). exists r0. simpl. auto.
    + rewrite (for_each_laureate_raise Y r rest e found Hy).
      exists []. repeat split; [constructor | simpl; lia].
Qed.

(** When the loop ends with the flag set, it has written something. *)
Lemma for_each_laureate_found (Y : Z) (l : list json) :
  forall found t,
    for_each_laureate Y l found = (t, Ret true) ->
    found = true
    \/ exists ev, In ev t /\ (is_print ev || is_log ev) = true.
Proof.
  induction l as [|r rest IH]; intros found t H.
  - simpl in H. injection H as _ ->. left. reflexivity.
  - destruct (first_prize_year r) as [y|e] eqn:Hy.
    + destruct (matches Y r) eqn:Hm.
      * rewrite (for_each_laureate_match Y r rest found Hm) in H.
        right.
        destruct (laureate_fields r) as [f|e] eqn:E.
        -- rewrite (print_single_ret r f E), bind_ret in H.
           injection H as <- _. destruct f as [[n a] b].
           eexists. split; [left; reflexivity | reflexivity].
        -- destruct e;
             try (rewrite (print_single_raise r _ E), bind_raise in H;
                  [discriminate H | discriminate]).
           rewrite (print_single_key_error r key E), bind_ret in H.
           injection H as <- _.
           eexists. split; [left; reflexivity | reflexivity].
      * rewrite (for_each_laureate_skip Y r rest found (ex_intro _ y Hy) Hm)
          in H.
        exact (IH found t H).
    + rewrite (for_each_laureate_raise Y r rest e found Hy) in H.
      discriminate H.
Qed.

(* ===================================================================== *)
(** ** More on the report *)
(* ===================================================================== *)

Lemma report_blocks (data : json) (Y : Z) :
  exists fs,
    printed (fst (report data Y)) = flat_map block fs
    /\ Forall (fun f => exists r items,
                   iter data = Ret items /\ In r items
                   /\ matches Y r = true /\ shows r f) fs
    /\ forall items, iter data = Ret items ->
         (List.length fs <= List.length (filter (matches Y) items))%nat.
Proof.
  unfold report. destruct (truthy data).
  - unfold lift. destruct (iter data) as [items|e].
    + rewrite bind_ret. cbn [fst app].
      destruct (for_each_laureate_blocks Y items false) as (fs & Hp & Hin & Hl).
      exists fs. split; [|split].
      * destruct (for_each_laureate Y items false) as [t [found|e]];
          cbn [fst] in Hp; [|rewrite bind_raise; exact Hp].
        rewrite bind_ret. cbn [fst]. rewrite printed_app, Hp.
        destruct found; simpl; apply app_nil_r.
      * eapply Forall_impl; [|exact Hin].
        intros f (r & H1 & H2 & H3). exists r, items. auto.
      * intros items' H. injection H as <-. exact Hl.
    + exists []. repeat split; [constructor | discriminate].
  - exists []. repeat split; [constructor | intros; simpl; lia].
Qed.

(** X5.  Whatever the network answers, what the call prints is a
    sequence of whole blocks, and every block is the block of a record
    that is among the records stored in the object, whose first prize has
    the requested year, and that carries the three values shown; there
    are no more blocks than such records. *)
Theorem printed_blocks_are_matching_records :
  forall (requests_get : string -> Z -> result response)
         (self : NobelApiFetcher) (Y : Z),
    let '(t, self', _) :=
      find_specific_year_laureates_info requests_get self Y in
    exists fs,
      printed t = flat_map block fs
      /\ Forall (fun f => exists r items,
                     iter (_all_laureates_data self') = Ret items
                     /\ In r items /\ matches Y r = true /\ shows r f) fs
      /\ forall items, iter (_all_laureates_data self') = Ret items ->
           (List.length fs <= List.length (filter (matches Y) items))%nat.
Proof.
  intros requests_get self Y. unfold find_specific_year_laureates_info.
  pose proof (get_laureates_data_no_print requests_get self) as Hn.
  destruct (_get_laureates_data requests_get self) as [t [data|e]];
    cbn [fst] in Hn.
  - destruct (report_blocks data Y) as (fs & Hp & Hin & Hl).
    destruct (report data Y) as [t' r]. cbn [fst] in Hp.
    exists fs. rewrite printed_app, Hn, Hp. cbn [_all_laureates_data
      set_all_laureates_data]. auto.
  - exists []. repeat split; [exact Hn | constructor | intros; simpl; lia].
Qed.

(** X6.  A call that returns normally is never silent: when nothing was
    printed, something was logged. *)
Theorem quiet_run_is_logged :
  forall (requests_get : string -> Z -> result response)
         (self : NobelApiFetcher) (Y : Z),
    snd (find_specific_year_laureates_info requests_get self Y) = Ret tt ->
    printed (fst (fst (find_specific_year_laureates_info
                         requests_get self Y))) = [] ->
    exists lvl msg args,
      In (Log lvl msg args)
         (fst (fst (find_specific_year_laureates_info requests_get self Y))).
Proof.
  intros requests_get self Y. unfold find_specific_year_laureates_info.
  destruct (_get_laureates_data requests_get self) as [t [data|e]];
    [|discriminate].
  assert (Hr : snd (report data Y) = Ret tt ->
               printed (fst (report data Y)) = [] ->
               exists lvl msg args, In (Log lvl msg args) (fst (report data Y))).
  { unfold report. destruct (truthy data).
    - unfold lift. destruct (iter data) as [items|e]; [|discriminate].
      rewrite bind_ret. cbn [fst snd app].
      destruct (for_each_laureate Y items false) as [t' [found|e]] eqn:E;
        [|discriminate].
      rewrite bind_ret. cbn [fst snd]. destruct found; simpl.
      + intros _ Hp. rewrite app_nil_r in *.
        destruct (for_each_laureate_found Y items false t' E)
          as [H | (ev & Hin & Hev)]; [discriminate|].
        destruct ev as [u to|text|text|lvl msg args]; try discriminate Hev.
        * exfalso. assert (Hi : In (Print text) (printed t')).
          { apply filter_In. split; [exact Hin | reflexivity]. }
          rewrite Hp in Hi. exact Hi.
        * exists lvl, msg, args. exact Hin.
      + intros _ _. do 3 eexists. apply in_or_app. right. left. reflexivity.
    - intros _ _. do 3 eexists. left. reflexivity. }
  destruct (report data Y) as [t' r]. cbn [fst snd] in *.
  intros H1 H2. rewrite printed_app in H2. apply app_eq_nil in H2.
  destruct (Hr H1 (proj2 H2)) as (lvl & msg & args & Hin).
  exists lvl, msg, args. apply in_or_app. right. exact Hin.
Qed.

Section MoreReport.

Variable requests_get : string -> Z -> result response.
Variable self : NobelApiFetcher.

(** X7.  When the fetch returns a value that is not a list: a value that
    counts as true (a number other than zero, [True], a non-empty string
    or object) makes the call raise [TypeError] without writing anything
    more, and a value that counts as false ([None], zero, [False], an
    empty string or object) is reported as "Laureates data not found!". *)
Theorem laureates_that_are_no_list :
  forall (Y : Z) (t : list event) (data : json),
    _get_laureates_data requests_get self = (t, Ret data) ->
    (forall l, data <> JList l) ->
    find_specific_year_laureates_info requests_get self Y
    = if truthy data
      then (t, set_all_laureates_data self data, Raise TypeError)
      else (t ++ [Log ERROR [Lit "Laureates data not found!"] []],
            set_all_laureates_data self data, Ret tt).
Proof.
  intros Y t data Hg Hl.
  rewrite (find_after_fetch requests_get self Y t data Hg).
  unfold report.
  destruct data as [|b|n|f|s|l|d]; cbn [truthy iter lift].
  - reflexivity.
  - destruct b; simpl; rewrite ?app_nil_r; reflexivity.
  - destruct (n =? 0); simpl; rewrite ?app_nil_r; reflexivity.
  - destruct f as [m e| |]; [destruct (m =? 0)|..]; simpl;
      rewrite ?app_nil_r; reflexivity.
  - destruct s; simpl; rewrite ?app_nil_r; reflexivity.
  - exfalso. apply (Hl l). reflexivity.
  - destruct d as [|[k v] d]; simpl; rewrite ?app_nil_r; reflexivity.
Qed.

(** Only the URL of the object is used by the fetch. *)
Lemma get_laureates_data_ignores_stored (stored : json) :
  _get_laureates_data requests_get (set_all_laureates_data self stored)
  = _get_laureates_data requests_get self.
Proof. reflexivity. Qed.

(** X11.  The call keeps nothing from one use to the next: its trace and
    its outcome do not depend on the records stored in the object
    before, and repeating the call on the object it leaves, with the same
    network, gives the same trace, the same outcome and the same
    object. *)
Theorem call_is_stateless :
  forall (Y : Z) (stored : json),
    let '(t, self', r) :=
      find_specific_year_laureates_info requests_get self Y in
    fst (fst (find_specific_year_laureates_info requests_get
                (set_all_laureates_data self stored) Y)) = t
    /\ snd (find_specific_year_laureates_info requests_get
              (set_all_laureates_data self stored) Y) = r
    /\ find_specific_year_laureates_info requests_get self' Y = (t, self', r).
Proof.
  intros Y stored. unfold find_specific_year_laureates_info.
  rewrite get_laureates_data_ignores_stored.
  destruct (_get_laureates_data requests_get self) as [t [data|e]] eqn:E.
  - destruct (report data Y) as [t' r] eqn:Er. cbn beta iota.
    rewrite get_laureates_data_ignores_stored, E, Er. repeat split.
  - rewrite E. repeat split.
Qed.

End MoreReport.

(* ===================================================================== *)
(** ** More on the fetch *)
(* ===================================================================== *)

Lemma raise_for_status_raises (resp : response) (e : exn) :
  raise_for_status resp = Raise e -> e = RequestException.
Proof.
  unfold raise_for_status.
  destruct ((400 <=? status_code resp) && (status_code resp <? 600));
    intros H; [injection H as <-; reflexivity | discriminate].
Qed.

Section MoreFetching.

Variable requests_get : string -> Z -> result response.
Variable self : NobelApiFetcher.

Let url := url_with_params self.

(** The trace of the [try] body: the request, and the warning when the
    body returns the empty list for want of the key. *)
Lemma fetch_cases :
  (exists r, fetch requests_get self = ([HttpGet url 8], r))
  \/ fetch requests_get self
     = ([HttpGet url 8; Log WARNING [Lit "No 'laureates' in response data"] []],
        Ret (JList [])).
Proof.
  unfold fetch, emit, lift, bind. fold url.
  destruct (requests_get url 8) as [resp|e]; simpl; [|eauto].
  destruct (raise_for_status resp) as [[]|e]; simpl; [|eauto].
  destruct (response_json resp) as [data|e]; simpl; [|eauto].
  destruct (contains data "laureates") as [[|]|e]; simpl; [|auto|eauto].
  destruct (getitem data "laureates"); simpl; eauto.
Qed.

(** X10.  When the body of a successful response decodes to something
    that is not an object, no records come out of it: a list that holds
    the string "laureates", a string that contains it, and every number,
    [True], [False] or [None] end the process with status 1 through the
    last [except] clause, with a [TypeError]; any other list or string is
    treated like an object without the key, with a warning and the empty
    list. *)
Theorem body_that_is_no_object :
  forall (resp : response) (data : json),
    requests_get url 8 = Ret resp ->
    raise_for_status resp = Ret tt ->
    response_json resp = Ret data ->
    (forall d, data <> JDict d) ->
    _get_laureates_data requests_get self
    = match contains data "laureates" with
      | Ret false =>
          ([HttpGet url 8;
            Log WARNING [Lit "No 'laureates' in response data"] []],
           Ret (JList []))
      | _ =>
          ([HttpGet url 8;
            Log ERROR [Lit "An unexpected error occurred:"] [TypeError]],
           Raise (SystemExit 1))
      end.
Proof.
  intros resp data H1 H2 H3 Hd.
  unfold _get_laureates_data, try_except.
  rewrite (fetch_decoded requests_get self resp data H1 H2 H3). fold url.
  destruct data as [|b|n|f|s|l|d]; try reflexivity.
  - cbn [contains]. destruct (is_substring "laureates" s); reflexivity.
  - cbn [contains]. destruct (existsb _ l); reflexivity.
  - exfalso. apply (Hd d). reflexivity.
Qed.

(** The network and the decoder raise exceptions of the class
    [Exception] only. *)
Hypothesis get_raises :
  forall e, requests_get url 8 = Raise e -> is_Exception e = true.
Hypothesis json_raises :
  forall resp e,
    requests_get url 8 = Ret resp ->
    response_json resp = Raise e -> is_Exception e = true.

Lemma fetch_raises_exception (t : list event) (e : exn) :
  fetch requests_get self = (t, Raise e) -> is_Exception e = true.
Proof.
  unfold fetch, emit, lift, bind. fold url.
  destruct (requests_get url 8) as [resp|e1] eqn:E1; simpl.
  - destruct (raise_for_status resp) as [[]|e2] eqn:E2; simpl.
    + destruct (response_json resp) as [data|e3] eqn:E3; simpl.
      * destruct (contains data "laureates") as [[|]|e4] eqn:E4; simpl.
        -- destruct (getitem data "laureates") as [v|e5] eqn:E5; simpl;
             intros H; [discriminate|].
           injection H as _ <-. raised; reflexivity.
        -- discriminate.
        -- intros H. injection H as _ <-. raised. reflexivity.
      * intros H. injection H as _ <-. exact (json_raises resp e3 eq_refl E3).
    + intros H. injection H as _ <-.
      apply raise_for_status_raises in E2. subst. reflexivity.
  - intros H. injection H as _ <-. exact (get_raises e1 eq_refl).
Qed.

(** The outcome of [_get_laureates_data]: the decoded records, or
    [SystemExit(1)]. *)
Lemma get_laureates_data_outcome :
  (exists data, snd (_get_laureates_data requests_get self) = Ret data)
  \/ snd (_get_laureates_data requests_get self) = Raise (SystemExit 1).
Proof.
  destruct (fetch requests_get self) as [t [data|e]] eqn:E.
  - left. exists data. rewrite (get_laureates_data_ret _ _ _ _ E). reflexivity.
  - right.
    destruct (get_laureates_data_raise requests_get self t e E
                (fetch_raises_exception t e E)) as (msg & args & ->).
    reflexivity.
Qed.

(** X8.  No exception of the request or of the decoding gets past
    [_get_laureates_data]: either it returns the records and has logged
    no error, or it leaves with [SystemExit(1)] and the one thing logged
    is an error, right after the request. *)
Theorem fetch_returns_or_exits :
  (exists t data,
      _get_laureates_data requests_get self = (t, Ret data)
      /\ forall msg args, ~ In (Log ERROR msg args) t)
  \/ (exists msg args,
         _get_laureates_data requests_get self
         = ([HttpGet url 8; Log ERROR msg args], Raise (SystemExit 1))).
Proof.
  destruct fetch_cases as [[r E] | E].
  - destruct r as [data|e].
    + left. exists [HttpGet url 8], data. split.
      * apply get_laureates_data_ret. exact E.
      * intros msg args [H|[]]. discriminate H.
    + right.
      destruct (get_laureates_data_raise requests_get self _ e E
                  (fetch_raises_exception _ e E)) as (msg & args & H).
      exists msg, args. exact H.
  - left. eexists. eexists. split.
    + apply get_laureates_data_ret. exact E.
    + intros msg args [H|[H|[]]]; discriminate H.
Qed.

End MoreFetching.

(* ===================================================================== *)
(** ** More on the year entered and on the whole program *)
(* ===================================================================== *)

(** X12.  Once a line has been accepted, the lines after it are not
    read: more input after it changes neither what is asked and reported
    nor the year returned, and is left unread. *)
Theorem get_year_ignores_later_input :
  forall (stdin rest extra : list string) (t : list event) (year : Z),
    get_year_from_user stdin = (t, rest, Ret year) ->
    get_year_from_user (stdin ++ extra) = (t, rest ++ extra, Ret year).
Proof.
  induction stdin as [|line stdin IH]; intros rest extra t year H.
  - discriminate H.
  - cbn [app get_year_from_user] in *.
    destruct (int_JStr line) as [(n & _ & Hi) | (_ & Hi)]; rewrite Hi in *.
    + destruct ((2000 <=? n) && (n <=? 2023)).
      * injection H as <- <- <-. reflexivity.
      * destruct (get_year_from_user stdin) as [[t0 rest0] r0] eqn:E.
        injection H as <- <- ->.
        rewrite (IH rest0 extra t0 year eq_refl). reflexivity.
    + destruct (get_year_from_user stdin) as [[t0 rest0] r0] eqn:E.
      injection H as <- <- ->.
      rewrite (IH rest0 extra t0 year eq_refl). reflexivity.
Qed.

(** X13.  Every year from 2000 to 2023, typed in decimal, is accepted at
    the first prompt: nothing is reported and the year is returned. *)
Theorem year_in_range_is_accepted :
  forall (year : Z) (rest : list string),
    2000 <= year <= 2023 ->
    get_year_from_user (str_of_int year :: rest)
    = ([Prompt prompt_text], rest, Ret year).
Proof.
  intros year rest H.
  assert (Hk : exists k : nat, (k < 24)%nat /\ year = 2000 + Z.of_nat k).
  { exists (Z.to_nat (year - 2000)). lia. }
  destruct Hk as (k & Hk & ->).
  do 24 (destruct k as [|k]; [reflexivity|]). lia.
Qed.

(** Without a line that is accepted, every line is rejected and the read
    at the end of the input raises [EOFError]. *)
Lemma get_year_all_rejected (stdin : list string)
    (reports : list (list event)) :
  Forall2 rejected stdin reports ->
  get_year_from_user stdin
  = (reprompts reports ++ [Prompt prompt_text], [], Raise EOFError).
Proof.
  induction 1 as [|line msgs stdin reports Hr _ IH]; [reflexivity|].
  cbn [get_year_from_user]. rewrite IH.
  destruct Hr as [line Hn | line n Hn Hout]; simpl; rewrite Hn.
  - reflexivity.
  - destruct ((2000 <=? n) && (n <=? 2023)) eqn:E; [|reflexivity].
    apply in_range_spec in E. contradiction.
Qed.

(** Reading the year sends no request, and ends with a year or with
    [EOFError]. *)
Lemma get_year_no_get (stdin : list string) :
  filter is_get (fst (fst (get_year_from_user stdin))) = []
  /\ ((exists year, snd (get_year_from_user stdin) = Ret year)
      \/ snd (get_year_from_user stdin) = Raise EOFError).
Proof.
  induction stdin as [|line stdin [IH1 IH2]]; [simpl; auto|].
  cbn [get_year_from_user].
  destruct (int_JStr line) as [(n & _ & Hi) | (_ & Hi)]; rewrite Hi.
  - destruct ((2000 <=? n) && (n <=? 2023)); [simpl; eauto|].
    destruct (get_year_from_user stdin) as [[t0 rest0] r0]. simpl in *.
    auto.
  - destruct (get_year_from_user stdin) as [[t0 rest0] r0]. simpl in *.
    auto.
Qed.

(** What the report raises is of the class [Exception]. *)
Lemma for_each_laureate_raises (Y : Z) (l : list json) :
  forall found e,
    snd (for_each_laureate Y l found) = Raise e -> is_Exception e = true.
Proof.
  induction l as [|r rest IH]; intros found e H; [discriminate H|].
  destruct (first_prize_year r) as [y|e0] eqn:Hy.
  - destruct (matches Y r) eqn:Hm.
    + rewrite (for_each_laureate_match Y r rest found Hm) in H.
      destruct (laureate_fields r) as [f|e1] eqn:E.
      * rewrite (print_single_ret r f E), bind_ret in H.
        exact (IH true e H).
      * destruct (laureate_fields_raises r e1 E) as [-> | [-> | [key ->]]].
        -- rewrite (print_single_raise r _ E), bind_raise in H;
             [|discriminate]. injection H as <-. reflexivity.
        -- rewrite (print_single_raise r _ E), bind_raise in H;
             [|discriminate]. injection H as <-. reflexivity.
        -- rewrite (print_single_key_error r key E), bind_ret in H.
           exact (IH true e H).
    + rewrite (for_each_laureate_skip Y r rest found (ex_intro _ y Hy) Hm)
        in H.
      exact (IH found e H).
  - rewrite (for_each_laureate_raise Y r rest e0 found Hy) in H.
    injection H as <-. exact (first_prize_year_raises r e0 Hy).
Qed.

Lemma report_raises (data : json) (Y : Z) (e : exn) :
  snd (report data Y) = Raise e -> is_Exception e = true.
Proof.
  unfold report. destruct (truthy data); [|discriminate].
  unfold lift. destruct (iter data) as [items|e0] eqn:Ei.
  - rewrite bind_ret. cbn [snd].
    pose proof (for_each_laureate_raises Y items false) as Hl.
    destruct (for_each_laureate Y items false) as [t [found|e1]].
    + rewrite bind_ret. cbn [snd]. destruct found; discriminate.
    + rewrite bind_raise. cbn [snd] in *. intros H. injection H as <-.
      apply Hl. reflexivity.
  - rewrite bind_raise. cbn [snd]. intros H. injection H as <-.
    apply iter_raises in Ei. subst. reflexivity.
Qed.

Lemma exit_status_of_exception {A} (e : exn) :
  is_Exception e = true -> exit_status (@Raise A e) = 1.
Proof. destruct e; simpl; intros H; [reflexivity..|discriminate H]. Qed.

Section Program.

Variable requests_get : string -> Z -> result response.

Let url := url_with_params default_fetcher.

(** X14.  The program sends its request only once a year has been
    accepted: when every line is rejected it ends with [EOFError] without
    any request, and when a year is accepted it sends exactly one
    request, after the last prompt. *)
Theorem main_requests_after_a_valid_year :
  forall stdin : list string,
    (forall reports,
        Forall2 rejected stdin reports ->
        main requests_get stdin
        = (reprompts reports ++ [Prompt prompt_text], Raise EOFError)
        /\ filter is_get (fst (main requests_get stdin)) = [])
    /\ (forall t rest year,
           get_year_from_user stdin = (t, rest, Ret year) ->
           filter is_get (fst (main requests_get stdin)) = [HttpGet url 8]
           /\ exists t',
                fst (main requests_get stdin) = t ++ HttpGet url 8 :: t').
Proof.
  intros stdin. split.
  - intros reports Hr.
    pose proof (get_year_no_get stdin) as [Hg _].
    unfold main. rewrite (get_year_all_rejected stdin reports Hr) in *.
    split; [reflexivity | exact Hg].
  - intros t rest year Hy.
    pose proof (get_year_no_get stdin) as [Hg _].
    unfold main. rewrite Hy in *. cbn [fst] in Hg.
    unfold find_specific_year_laureates_info.
    destruct (get_laureates_data_trace requests_get default_fetcher)
      as (t0 & Ht & Hg0 & _). fold url in Ht.
    destruct (_get_laureates_data requests_get default_fetcher)
      as [t1 [data|e]]; cbn [fst] in Ht; subst t1.
    + pose proof (report_no_get data year) as Hr.
      destruct (report data year) as [t' r]. cbn [fst] in *.
      split.
      * rewrite !filter_app. cbn [filter is_get]. rewrite Hg, Hg0, Hr.
        reflexivity.
      * exists (t0 ++ t'). reflexivity.
    + cbn [fst]. split.
      * rewrite filter_app. cbn [filter is_get]. rewrite Hg, Hg0. reflexivity.
      * exists t0. reflexivity.
Qed.

Hypothesis get_raises :
  forall e, requests_get url 8 = Raise e -> is_Exception e = true.
Hypothesis json_raises :
  forall resp e,
    requests_get url 8 = Ret resp ->
    response_json resp = Raise e -> is_Exception e = true.

(** X15.  With a network and a decoder that raise exceptions of the
    class [Exception] only, the exit status of the program is 0 or 1,
    whatever is typed and whatever is answered. *)
Theorem exit_status_is_0_or_1 :
  forall stdin : list string,
    exit_status (snd (main requests_get stdin)) = 0
    \/ exit_status (snd (main requests_get stdin)) = 1.
Proof.
  intros stdin. unfold main.
  pose proof (get_year_no_get stdin) as [_ Hy].
  destruct (get_year_from_user stdin) as [[t rest] r]. cbn [snd] in Hy.
  destruct Hy as [[year ->] | ->]; [|right; reflexivity].
  unfold find_specific_year_laureates_info.
  pose proof (get_laureates_data_outcome requests_get default_fetcher
                get_raises json_raises) as Ho.
  destruct (_get_laureates_data requests_get default_fetcher)
    as [t0 o]. cbn [snd] in Ho.
  destruct Ho as [[data ->] | ->]; [|right; reflexivity].
  pose proof (report_raises data year) as Hr.
  destruct (report data year) as [t' [[]|e]]; cbn [snd] in *.
  - left. reflexivity.
  - right. apply exit_status_of_exception. apply Hr. reflexivity.
Qed.

End Program.

(* ===================================================================== *)
(** ** When the message about no laureates is logged *)
(* ===================================================================== *)

Lemma shown_no_info (r : json) (msg : fstring) (args : list exn) :
  ~ In (Log INFO msg args) (shown r).
Proof.
  unfold shown, _print_single_laureate_info.
  destruct (laureate_fields r) as [[[n y] a]|e]; [|destruct e]; simpl;
    intros H; repeat destruct H as [H|H]; try discriminate H; exact H.
Qed.

Lemma existsb_filter_nil {A} (f : A -> bool) (l : list A) :
  existsb f l = false <-> filter f l = [].
Proof.
  induction l as [|x l IH]; simpl; [tauto|].
  destruct (f x); simpl; [split; discriminate | exact IH].
Qed.

Section NoLaureates.

Variable requests_get : string -> Z -> result response.
Variable self : NobelApiFetcher.

(** X16.  For a non-empty list of records on which every test can be
    evaluated and no display raises, the message
    "No laureates were found in {Y}!" is logged exactly when no record
    has the requested year.  A matching record that is only logged as
    lacking a key counts as found: then no block is printed and the
    message is not logged either. *)
Theorem no_laureates_message_iff_no_match :
  forall (Y : Z) (t : list event) (l : list json),
    l <> [] ->
    _get_laureates_data requests_get self = (t, Ret (JList l)) ->
    Forall (fun r => exists y, first_prize_year r = Ret y) l ->
    Forall (fun r => snd (_print_single_laureate_info r) = Ret tt)
           (filter (matches Y) l) ->
    exists t',
      find_specific_year_laureates_info requests_get self Y
      = (t ++ t', set_all_laureates_data self (JList l), Ret tt)
      /\ (In (Log INFO [Lit "No laureates were found in "; Val (JInt Y);
                        Lit "!"] []) t'
          <-> filter (matches Y) l = []).
Proof.
  intros Y t l Hne Hg Hy Hp.
  rewrite (find_after_fetch requests_get self Y t _ Hg).
  rewrite (report_list Y l Hy Hp). cbn [fst snd].
  eexists. split; [reflexivity|].
  destruct l as [|r rest]; [contradiction|].
  rewrite <- existsb_filter_nil.
  assert (Hs : forall rs msg args,
             ~ In (Log INFO msg args) (flat_map shown rs)).
  { intros rs msg args H. apply in_flat_map in H.
    destruct H as (x & _ & H). exact (shown_no_info x msg args H). }
  destruct (existsb (matches Y) (r :: rest)).
  - rewrite app_nil_r. split; [|discriminate].
    intros H. exfalso. exact (Hs _ _ _ H).
  - split; [reflexivity|]. intros _. apply in_or_app. right. left.
    reflexivity.
Qed.

End NoLaureates.

(* ===================================================================== *)
(** ** Runs on sample data *)
(* ===================================================================== *)

Module Runs.

Import Sample.

(** The example of the interface description: one block for Marie Curie
    in 1903. *)
Example curie_1903 :
  let '(t, _, r) :=
    find_specific_year_laureates_info (answers (body [curie]))
      default_fetcher 1903 in
  r = Ret tt
  /\ map (fun ev => match ev with
                    | Print text => text_of text
                    | _ => None
                    end) (printed t)
     = [ Some "---------------------------------";
         Some "Full name: Marie Curie";
         Some "Award year: 1903";
         Some "Affiliations: University of Paris";
         Some "" ].
Proof. split; reflexivity. Qed.

(** The whole program: a word and a year before 2000 are rejected, 2021
    is accepted, and no laureate of that year is among the records. *)
Example session_1921 :
  main (answers (body [curie; einstein])) ["nineteen"; "1921"; "2021"]
  = (Prompt prompt_text :: not_a_number
       ++ Prompt prompt_text :: not_a_year
       ++ Prompt prompt_text
       :: HttpGet (url_with_params default_fetcher) 8
       :: [Log INFO [Lit "No laureates were found in "; Val (JInt 2021);
                     Lit "!"] []],
     Ret tt).
Proof. reflexivity. Qed.



Lemma missing_prizes_stop_the_report_witness :
  exists e,
    snd (find_specific_year_laureates_info
           (answers (body [curie; without_prizes; einstein]))
           default_fetcher 1921) = Raise e.
Proof.
  apply (missing_prizes_stop_the_report
           (answers (body [curie; without_prizes; einstein]))
           default_fetcher 1921
           [HttpGet (url_with_params default_fetcher) 8]
           [curie; without_prizes; einstein]
           [("knownName", JDict [("en", JStr "A")])]).
  - reflexivity.
  - right. left. reflexivity.
  - reflexivity.
Defined.

(** The run of the failing input of C2: the [KeyError] of the test of the
    loop leaves the call, nothing is logged, and the laureate of 1921
    that comes after the record is never displayed. *)
Example missing_prizes_run :
  find_specific_year_laureates_info
    (answers (body [without_prizes; einstein])) default_fetcher 1921
  = ([HttpGet (url_with_params default_fetcher) 8],
     set_all_laureates_data default_fetcher
       (JList [without_prizes; einstein]),
     Raise (KeyError (JStr "nobelPrizes"))).
Proof. reflexivity. Qed.

(** The display routine on its own does log that record. *)
Example without_prizes_displayed :
  _print_single_laureate_info without_prizes
  = ([Log ERROR
        [Lit "Failed to print laureate info: ";
         Exc (KeyError (JStr "'nobelPrizes' not found in laureate data"))] []],
     Ret tt).
Proof. reflexivity. Qed.

Lemma get_laureates_data_of_object_witness :
  _get_laureates_data (answers (JDict [("error", JStr "none")]))
    default_fetcher
  = ([HttpGet (url_with_params default_fetcher) 8;
      Log WARNING [Lit "No 'laureates' in response data"] []],
     Ret (JList []))
  /\ _get_laureates_data (answers (body [curie])) default_fetcher
     = ([HttpGet (url_with_params default_fetcher) 8], Ret (JList [curie])).
Proof.
  split.
  - apply (get_laureates_data_of_object
             (answers (JDict [("error", JStr "none")])) default_fetcher
             (ok (Ret (JDict [("error", JStr "none")])))
             [("error", JStr "none")]); reflexivity.
  - apply (get_laureates_data_of_object
             (answers (body [curie])) default_fetcher
             (ok (Ret (body [curie]))) [("laureates", JList [curie])]);
      reflexivity.
Defined.

Lemma no_data_is_reported_witness :
  find_specific_year_laureates_info (answers (body [])) default_fetcher 2001
  = ([HttpGet (url_with_params default_fetcher) 8]
       ++ [Log ERROR [Lit "Laureates data not found!"] []],
     set_all_laureates_data default_fetcher (JList []), Ret tt)
  /\ printed ([HttpGet (url_with_params default_fetcher) 8]
                ++ [Log ERROR [Lit "Laureates data not found!"] []]) = [].
Proof.
  apply (no_data_is_reported (answers (body [])) default_fetcher 2001).
  reflexivity.
Defined.

Lemma no_match_is_reported_witness :
  find_specific_year_laureates_info (answers (body [curie; einstein]))
    default_fetcher 2001
  = ([HttpGet (url_with_params default_fetcher) 8]
       ++ [Log INFO [Lit "No laureates were found in "; Val (JInt 2001);
                     Lit "!"] []],
     set_all_laureates_data default_fetcher (JList [curie; einstein]), Ret tt)
  /\ printed ([HttpGet (url_with_params default_fetcher) 8]
                ++ [Log INFO [Lit "No laureates were found in ";
                              Val (JInt 2001); Lit "!"] []]) = [].
Proof.
  apply (no_match_is_reported (answers (body [curie; einstein]))
           default_fetcher 2001).
  - discriminate.
  - reflexivity.
  - repeat constructor; eexists; (split; [reflexivity | discriminate]).
Defined.

(** C6 as stated does not hold: the one record has no prize at all, so
    no first prize has the year 2001; the test of the loop raises
    [IndexError], which nothing in the program handles, and the message
    about no laureates is not logged. *)
Lemma no_match_can_raise :
  let l := [no_prizes] in
  let run :=
    find_specific_year_laureates_info (answers (body l)) default_fetcher 2001 in
  l <> []
  /\ Forall (fun r => award_year_of r <> Ret 2001) l
  /\ run = ([HttpGet (url_with_params default_fetcher) 8],
            set_all_laureates_data default_fetcher (JList l),
            Raise IndexError)
  /\ ~ In (Log INFO [Lit "No laureates were found in "; Val (JInt 2001);
                     Lit "!"] []) (fst (fst run)).
Proof.
  split; [discriminate|]. split; [repeat constructor; discriminate|].
  split; [reflexivity|].
  intros [H|[]]. discriminate H.
Qed.

Lemma transport_failure_exits_witness :
  let '(t, self', r) :=
    find_specific_year_laureates_info (fails Timeout) default_fetcher 2001 in
  t = [HttpGet (url_with_params default_fetcher) 8;
       Log ERROR [Lit "Request timed out"] []]
  /\ r = Raise (SystemExit 1)
  /\ exit_status r = 1
  /\ printed t = []
  /\ self' = default_fetcher.
Proof.
  apply (transport_failure_exits (fails Timeout) default_fetcher 2001 Timeout);
    reflexivity.
Defined.

Lemma unexpected_error_exits_witness :
  find_specific_year_laureates_info (undecodable ValueError)
    default_fetcher 2001
  = ([HttpGet (url_with_params default_fetcher) 8]
       ++ [Log ERROR [Lit "An unexpected error occurred:"] [ValueError]],
     default_fetcher, Raise (SystemExit 1))
  /\ find_specific_year_laureates_info (undecodable RequestException)
       default_fetcher 2001
     = ([HttpGet (url_with_params default_fetcher) 8]
          ++ [Log ERROR [Lit "A request error occurred:"] [RequestException]],
        default_fetcher, Raise (SystemExit 1)).
Proof.
  split.
  - destruct (unexpected_error_exits (undecodable ValueError)
                default_fetcher 2001 ValueError eq_refl) as [Hbody Hexit].
    apply (Hexit [HttpGet (url_with_params default_fetcher) 8]).
    apply (Hbody (ok (Raise ValueError))); reflexivity.
  - destruct (unexpected_error_exits (undecodable RequestException)
                default_fetcher 2001 RequestException eq_refl)
      as [Hbody Hexit].
    apply (Hexit [HttpGet (url_with_params default_fetcher) 8]).
    apply (Hbody (ok (Raise RequestException))); reflexivity.
Defined.

(** C10 as stated does not hold: when the decoder raises a request
    exception on a body that is not JSON, the clause for request
    exceptions logs the error and the last clause logs nothing. *)
Lemma undecodable_body_meets_request_clause :
  let run := _get_laureates_data (undecodable RequestException)
               default_fetcher in
  run = ([HttpGet (url_with_params default_fetcher) 8;
          Log ERROR [Lit "A request error occurred:"] [RequestException]],
         Raise (SystemExit 1))
  /\ forall args,
       ~ In (Log ERROR [Lit "An unexpected error occurred:"] args) (fst run).
Proof.
  split; [reflexivity|].
  intros args [H|[H|[]]]; discriminate H.
Qed.

Lemma empty_sequence_is_unhandled_witness :
  _print_single_laureate_info no_prizes = ([], Raise IndexError).
Proof.
  apply (empty_sequence_is_unhandled no_prizes (JStr "A")).
  - reflexivity.
  - left. reflexivity.
Defined.

(** The same through the affiliations: an award year and an empty list
    of affiliations. *)
Example empty_affiliations_run :
  _print_single_laureate_info
    (JDict [ ("knownName", JDict [("en", JStr "A")]);
             ("nobelPrizes",
              JList [JDict [("awardYear", JStr "2000");
                            ("affiliations", JList [])]]) ])
  = ([], Raise IndexError).
Proof. reflexivity. Qed.

(** A timeout ends the whole program with status 1. *)
Example timeout_session :
  exit_status (snd (main (fails Timeout) ["2001"])) = 1
  /\ printed (fst (main (fails Timeout) ["2001"])) = [].
Proof. split; reflexivity. Qed.

(** *** Runs for the further properties *)

Lemma display_without_prizes_is_logged_witness :
  _print_single_laureate_info without_prizes = ([prizes_not_found], Ret tt).
Proof.
  apply (display_without_prizes_is_logged
           [("knownName", JDict [("en", JStr "A")])] (JStr "A"));
    reflexivity.
Defined.

Lemma prizes_guard_is_dead_in_the_loop_witness :
  ~ In prizes_not_found
       (fst (fst (find_specific_year_laureates_info
                    (answers (body [without_prizes])) default_fetcher 2000))).
Proof.
  apply (prizes_guard_is_dead_in_the_loop
           (answers (body [without_prizes])) default_fetcher 2000).
Defined.

(** The block of Einstein is printed before the record without prizes
    stops the loop. *)
Lemma for_each_laureate_app_witness :
  for_each_laureate 1921 ([curie; einstein] ++ [without_prizes; einstein])
    false
  = (block (JStr "Albert Einstein", JStr "1921",
            JStr "Kaiser-Wilhelm-Institut"),
     Raise (KeyError (JStr "nobelPrizes"))).
Proof.
  rewrite (for_each_laureate_app 1921 [curie; einstein]
             [without_prizes; einstein] false).
  - reflexivity.
  - repeat constructor; eexists; reflexivity.
  - repeat constructor.
Defined.

Lemma quiet_run_is_logged_witness :
  exists lvl msg args,
    In (Log lvl msg args)
       (fst (fst (find_specific_year_laureates_info
                    (answers (body [unaffiliated])) default_fetcher 2000))).
Proof.
  apply (quiet_run_is_logged (answers (body [unaffiliated]))
           default_fetcher 2000); reflexivity.
Defined.

Lemma laureates_that_are_no_list_witness :
  find_specific_year_laureates_info
    (answers (JDict [("laureates", JDict [("count", JInt 0)])]))
    default_fetcher 2001
  = ([HttpGet (url_with_params default_fetcher) 8],
     set_all_laureates_data default_fetcher (JDict [("count", JInt 0)]),
     Raise TypeError)
  /\ find_specific_year_laureates_info
       (answers (JDict [("laureates", JNull)])) default_fetcher 2001
     = ([HttpGet (url_with_params default_fetcher) 8;
         Log ERROR [Lit "Laureates data not found!"] []],
        set_all_laureates_data default_fetcher JNull, Ret tt).
Proof.
  split.
  - apply (laureates_that_are_no_list
             (answers (JDict [("laureates", JDict [("count", JInt 0)])]))
             default_fetcher 2001
             [HttpGet (url_with_params default_fetcher) 8]
             (JDict [("count", JInt 0)])); [reflexivity | discriminate].
  - apply (laureates_that_are_no_list
             (answers (JDict [("laureates", JNull)]))
             default_fetcher 2001
             [HttpGet (url_with_params default_fetcher) 8] JNull);
      [reflexivity | discriminate].
Defined.

Lemma fetch_returns_or_exits_witness :
  (exists t data,
      _get_laureates_data (fails Timeout) default_fetcher = (t, Ret data)
      /\ forall msg args, ~ In (Log ERROR msg args) t)
  \/ (exists msg args,
         _get_laureates_data (fails Timeout) default_fetcher
         = ([HttpGet (url_with_params default_fetcher) 8;
             Log ERROR msg args], Raise (SystemExit 1))).
Proof.
  apply (fetch_returns_or_exits (fails Timeout) default_fetcher).
  - intros e H. injection H as <-. reflexivity.
  - intros resp e H. discriminate H.
Defined.

(** A response with status 404. *)
Lemma bad_status_exits_witness :
  find_specific_year_laureates_info
    (fun _ _ => Ret {| status_code := 404; response_json := Ret (body []) |})
    default_fetcher 2001
  = ([HttpGet (url_with_params default_fetcher) 8;
      Log ERROR [Lit "A request error occurred:"] [RequestException]],
     default_fetcher, Raise (SystemExit 1)).
Proof.
  apply (bad_status_exits
           (fun _ _ => Ret {| status_code := 404;
                              response_json := Ret (body []) |})
           default_fetcher 2001
           {| status_code := 404; response_json := Ret (body []) |});
    reflexivity.
Defined.

(** A body that is a bare list of records, and a body that is a number. *)
Lemma body_that_is_no_object_witness :
  _get_laureates_data (answers (JList [curie])) default_fetcher
  = ([HttpGet (url_with_params default_fetcher) 8;
      Log WARNING [Lit "No 'laureates' in response data"] []],
     Ret (JList []))
  /\ _get_laureates_data (answers (JInt 7)) default_fetcher
     = ([HttpGet (url_with_params default_fetcher) 8;
         Log ERROR [Lit "An unexpected error occurred:"] [TypeError]],
        Raise (SystemExit 1)).
Proof.
  split.
  - apply (body_that_is_no_object (answers (JList [curie])) default_fetcher
             (ok (Ret (JList [curie]))) (JList [curie]));
      try reflexivity; discriminate.
  - apply (body_that_is_no_object (answers (JInt 7)) default_fetcher
             (ok (Ret (JInt 7))) (JInt 7)); try reflexivity; discriminate.
Defined.

Lemma get_year_ignores_later_input_witness :
  get_year_from_user (["abc"; "2001"] ++ ["x"; "2002"])
  = (Prompt prompt_text :: not_a_number ++ [Prompt prompt_text],
     [] ++ ["x"; "2002"], Ret 2001).
Proof.
  apply (get_year_ignores_later_input ["abc"; "2001"] [] ["x"; "2002"]).
  reflexivity.
Defined.

Lemma year_in_range_is_accepted_witness :
  get_year_from_user (str_of_int 2023 :: ["2000"])
  = ([Prompt prompt_text], ["2000"], Ret 2023).
Proof. apply (year_in_range_is_accepted 2023 ["2000"]). lia. Defined.

Lemma main_requests_after_a_valid_year_witness :
  filter is_get (fst (main (answers (body [curie])) ["abc"; "1999"])) = []
  /\ filter is_get (fst (main (answers (body [curie])) ["abc"; "2001"]))
     = [HttpGet (url_with_params default_fetcher) 8].
Proof.
  split.
  - apply (main_requests_after_a_valid_year (answers (body [curie]))
             ["abc"; "1999"]) with (reports := [not_a_number; not_a_year]).
    constructor; [apply rejected_not_a_number; reflexivity|].
    constructor; [|constructor].
    apply (rejected_not_a_year "1999" 1999); [reflexivity | lia].
  - apply (main_requests_after_a_valid_year (answers (body [curie]))
             ["abc"; "2001"])
      with (t := Prompt prompt_text :: not_a_number ++ [Prompt prompt_text])
           (rest := []) (year := 2001).
    reflexivity.
Defined.

Lemma exit_status_is_0_or_1_witness :
  exit_status (snd (main (answers (body [without_prizes])) ["2001"])) = 0
  \/ exit_status (snd (main (answers (body [without_prizes])) ["2001"])) = 1.
Proof.
  apply (exit_status_is_0_or_1 (answers (body [without_prizes]))).
  - intros e H. discriminate H.
  - intros resp e H. injection H as <-. discriminate.
Defined.

(** One laureate of 2000 without an affiliation among the records: an
    error is logged for that one, no block is printed, and the message
    about no laureates is not logged. *)
Lemma no_laureates_message_iff_no_match_witness :
  exists t',
    find_specific_year_laureates_info
      (answers (body [curie; unaffiliated])) default_fetcher 2000
    = ([HttpGet (url_with_params default_fetcher) 8] ++ t',
       set_all_laureates_data default_fetcher (JList [curie; unaffiliated]),
       Ret tt)
    /\ (In (Log INFO [Lit "No laureates were found in "; Val (JInt 2000);
                      Lit "!"] []) t'
        <-> filter (matches 2000) [curie; unaffiliated] = []).
Proof.
  apply (no_laureates_message_iff_no_match
           (answers (body [curie; unaffiliated])) default_fetcher 2000).
  - discriminate.
  - reflexivity.
  - repeat constructor; eexists; reflexivity.
  - repeat constructor.
Defined.


End Runs.
